(** * Marketing analytics ETL: a shallow embedding of the unifier pipeline

    Model of [src/etl/clean_merge.py] ([normalize_campaign_id],
    [compute_metrics], [clean_and_merge]), of [src/etl/load_to_duckdb.py]
    ([load_to_duckdb], [main]) and of the KPI cards and charts of
    [src/dashboard/app.py].

    Python strings are sequences of Unicode code points. The pipeline's
    counters and metrics are exact rationals [Q]; the float64 evaluation of
    the metrics' rounding and the dashboard's float columns use the IEEE 754
    binary64 model of [SpecFloat], its integer columns int64 arithmetic.
    The library behaviour modelled is that of pandas 2.x and numpy. *)

From Stdlib Require Import String Ascii List Bool ZArith QArith Qround SpecFloat.
From Stdlib Require Import Sorting.Sorted Sorting.Permutation Lia Lqa.
Import ListNotations.
Open Scope string_scope.

(* ------------------------------------------------------------------ *)
(** ** Python strings *)

(** A Python [str]: its sequence of code points. *)
Definition pystr : Type := list N.

(** The [str] written with the characters of an ASCII literal. *)
Definition u (s : string) : pystr := map N_of_ascii (list_ascii_of_string s).

(** [str.isspace()] on one character. These are the 29 code points for
    which Python's [chr(c).isspace()] holds (U+0009..U+000D,
    U+001C..U+0020, U+0085, U+00A0, U+1680, U+2000..U+200A, U+2028, U+2029,
    U+202F, U+205F, U+3000); [str.strip()] removes exactly these. *)
Definition py_isspace (c : N) : bool :=
  ((9 <=? c) && (c <=? 13))%N || ((28 <=? c) && (c <=? 32))%N
  || (c =? 133)%N || (c =? 160)%N || (c =? 5760)%N
  || ((8192 <=? c) && (c <=? 8202))%N
  || (c =? 8232)%N || (c =? 8233)%N || (c =? 8239)%N || (c =? 8287)%N
  || (c =? 12288)%N.

Fixpoint lstrip (s : pystr) : pystr :=
  match s with
  | [] => []
  | c :: s' => if py_isspace c then lstrip s' else s
  end.

Fixpoint rstrip (s : pystr) : pystr :=
  match s with
  | [] => []
  | c :: s' =>
      match rstrip s' with
      | [] => if py_isspace c then [] else [c]
      | r => c :: r
      end
  end.

(** [str.strip()] *)
Definition strip (s : pystr) : pystr := rstrip (lstrip s).

(** [p] is a prefix of [s] *)
Fixpoint is_prefix (p s : pystr) : bool :=
  match p, s with
  | [], _ => true
  | _ :: _, [] => false
  | a :: p', b :: s' => (a =? b)%N && is_prefix p' s'
  end.

(** [s.startswith(p)] *)
Definition startswith (s p : pystr) : bool := is_prefix p s.

(** Python's ordering of strings: code point by code point, a proper prefix
    first. *)
Fixpoint pystr_compare (a b : pystr) : comparison :=
  match a, b with
  | [], [] => Eq
  | [], _ :: _ => Lt
  | _ :: _, [] => Gt
  | x :: a', y :: b' =>
      match N.compare x y with
      | Eq => pystr_compare a' b'
      | c => c
      end
  end.

(** [a == b] *)
Definition pystr_eqb (a b : pystr) : bool :=
  match pystr_compare a b with Eq => true | _ => false end.

(** Decimal rendering of a Python [int], as [str(n)] prints it. *)
Fixpoint string_of_uint (d : Decimal.uint) : string :=
  match d with
  | Decimal.Nil => EmptyString
  | Decimal.D0 d => String "0" (string_of_uint d)
  | Decimal.D1 d => String "1" (string_of_uint d)
  | Decimal.D2 d => String "2" (string_of_uint d)
  | Decimal.D3 d => String "3" (string_of_uint d)
  | Decimal.D4 d => String "4" (string_of_uint d)
  | Decimal.D5 d => String "5" (string_of_uint d)
  | Decimal.D6 d => String "6" (string_of_uint d)
  | Decimal.D7 d => String "7" (string_of_uint d)
  | Decimal.D8 d => String "8" (string_of_uint d)
  | Decimal.D9 d => String "9" (string_of_uint d)
  end.

Definition string_of_Z (z : Z) : string :=
  match Z.to_int z with
  | Decimal.Pos d => string_of_uint d
  | Decimal.Neg d => String "-" (string_of_uint d)
  end.

(** A campaign-id cell as [pd.read_csv] delivers it: missing ([NaN]), an
    integer (an all-integer id column is parsed as [int]), or any other
    value, given by its [str()] (the only way the code uses it). *)
Inductive pyval : Type :=
| PNA
| PStr (s : pystr)
| PInt (z : Z).

(** [pd.isna] *)
Definition isna (v : pyval) : bool :=
  match v with PNA => true | _ => false end.

(** [str(v)] for non-missing cells *)
Definition py_str (v : pyval) : pystr :=
  match v with
  | PNA => u "nan"
  | PStr s => s
  | PInt z => u (string_of_Z z)
  end.

(* ------------------------------------------------------------------ *)
(** ** Identifier normalizer ([normalize_campaign_id]) *)

Definition normalize_campaign_id (campaign_id : pyval) (platform : pystr)
  : pystr :=
  if isna campaign_id then (platform ++ u "_unknown")%list
  else
    let campaign_id := strip (py_str campaign_id) in
    if negb (startswith campaign_id platform)
    then (platform ++ u "_" ++ campaign_id)%list
    else campaign_id.

(** A platform string whose first character (if any) is not whitespace. *)
Definition lead_ok (p : pystr) : bool :=
  match p with
  | [] => true
  | c :: _ => negb (py_isspace c)
  end.

(* ------------------------------------------------------------------ *)
(** ** IEEE 754 binary64 ([float64]) *)

Definition f64 : Type := spec_float.

Definition fadd : f64 -> f64 -> f64 := SFadd 53 1024.
Definition fsub : f64 -> f64 -> f64 := SFsub 53 1024.
Definition fmul : f64 -> f64 -> f64 := SFmul 53 1024.
Definition fdiv : f64 -> f64 -> f64 := SFdiv 53 1024.

(** [float(n)]: the integer rounded to the nearest float64. *)
Definition of_Z (n : Z) : f64 := binary_normalize 53 1024 n 0 false.

(** The decimal literal [n * 10^-k], as Python reads it (correctly
    rounded: [n] and [10^k] are exact floats in every use below). *)
Definition dec (n : Z) (k : nat) : f64 := fdiv (of_Z n) (of_Z (10 ^ Z.of_nat k)).

Definition f64_zero : f64 := S754_zero false.
Definition f64_negzero : f64 := S754_zero true.
Definition f64_nan : f64 := S754_nan.

(** The exact value of a finite float (0 for the others). *)
Definition to_Q (x : f64) : Q :=
  match x with
  | S754_finite s m e =>
      let q := match e with
               | Z0 => inject_Z (Zpos m)
               | Zpos p => inject_Z (Zpos m * Z.pow_pos 2 p)
               | Zneg p => Zpos m # Pos.pow 2 p
               end in
      if s then - q else q
  | _ => 0
  end.

(** [numpy.isnan] *)
Definition f64_isnan (x : f64) : bool :=
  match x with S754_nan => true | _ => false end.

(* ------------------------------------------------------------------ *)
(** ** Rows *)

(** A numeric cell before [pd.to_numeric(..., errors="coerce")]: a number,
    or a value that does not parse as one (text, missing). *)
Inductive numcell : Type :=
| NNum (q : Q)
| NBad.

(** A row of [google_ads.csv] / [facebook_ads.csv] as read by [pd.read_csv].
    The files are taken to have the columns the code reads, with a string
    in every [platform] cell. *)
Record raw_row : Type := mk_raw {
  raw_campaign_id : pyval;
  raw_campaign_name : pystr;
  raw_date : pystr;
  raw_platform : pystr;
  raw_impressions : numcell;
  raw_clicks : numcell;
  raw_conversions : numcell;
  raw_cost : numcell;
  raw_revenue : numcell
}.

(** A row after id normalization, numeric coercion and date conversion.
    [date] is the [strftime("%Y-%m-%d")] text of the parsed date, or
    [None] for [NaT] (rendered [NaN] by pandas). *)
Record clean_row : Type := mk_clean {
  c_campaign_id : pystr;
  c_campaign_name : pystr;
  c_date : option pystr;
  c_platform : pystr;
  c_impressions : Q;
  c_clicks : Q;
  c_conversions : Q;
  c_cost : Q;
  c_revenue : Q
}.

(** A row of the unified dataset: the clean columns plus the four metrics. *)
Record unified_row : Type := mk_unified {
  campaign_id : pystr;
  campaign_name : pystr;
  date : option pystr;
  platform : pystr;
  impressions : Q;
  clicks : Q;
  conversions : Q;
  cost : Q;
  revenue : Q;
  ctr : Q;
  cpc : Q;
  roas : Q;
  conversion_rate : Q
}.

(** [pd.to_numeric(col, errors="coerce").fillna(0)] on one cell *)
Definition to_numeric_fill0 (c : numcell) : Q :=
  match c with NNum q => q | NBad => 0 end.

(* ------------------------------------------------------------------ *)
(** ** Rounding: [Series.round(2)] (numpy [around]: scale, [rint], unscale) *)

(** [numpy.rint]: nearest integer, ties to the even integer. *)
Definition rint (x : Q) : Z :=
  let f := Qfloor x in
  match Qcompare (x - inject_Z f) (1 # 2) with
  | Lt => f
  | Gt => (f + 1)%Z
  | Eq => if Z.even f then f else (f + 1)%Z
  end.

(** [round(2)] on exact values *)
Definition round2 (x : Q) : Q := inject_Z (rint (x * 100)) / 100.

(** Half-up rounding to two decimals, as §4.3 of the spec words it. *)
Definition round2_half_up_spec (x : Q) : Q :=
  inject_Z (Qfloor (x * 100 + (1 # 2))) / 100.

(* ------------------------------------------------------------------ *)
(** ** Metric calculator ([compute_metrics]) *)

(** [a / b.replace(0, pd.NA)]: the quotient, or [NA] when [b] is 0. *)
Definition div_na (a b : Q) : option Q :=
  if Qeq_bool b 0 then None else Some (a / b).

(** [.fillna(0)] *)
Definition fillna0 (o : option Q) : Q :=
  match o with Some v => v | None => 0 end.

Definition compute_metrics_row (r : clean_row) : unified_row :=
  {| campaign_id := c_campaign_id r;
     campaign_name := c_campaign_name r;
     date := c_date r;
     platform := c_platform r;
     impressions := c_impressions r;
     clicks := c_clicks r;
     conversions := c_conversions r;
     cost := c_cost r;
     revenue := c_revenue r;
     ctr := round2 (fillna0 (option_map (fun v => v * 100)
                               (div_na (c_clicks r) (c_impressions r))));
     cpc := round2 (fillna0 (div_na (c_cost r) (c_clicks r)));
     roas := round2 (fillna0 (div_na (c_revenue r) (c_cost r)));
     conversion_rate :=
       round2 (fillna0 (option_map (fun v => v * 100)
                          (div_na (c_conversions r) (c_clicks r)))) |}.

Definition compute_metrics (df : list clean_row) : list unified_row :=
  map compute_metrics_row df.

(** *** The same four columns as pandas evaluates them in float64

    The numeric columns hold float64 values (integer counts below 2^53
    convert exactly). [x / y.replace(0, pd.NA)] divides in float64 and
    gives [NA] where [y] is zero; [* 100] multiplies in float64; pandas 2
    turns the column back to float64 at [fillna(0)], which also replaces
    [NaN]; [round(2)] is numpy's [around]: multiply by [100.0], [rint],
    divide by [100.0], each step in float64. *)

(** [numpy.rint] on a float: the integer nearest to its exact value, ties
    to even, with the sign of the input kept on a zero result. *)
Definition np_rint (x : f64) : f64 :=
  match x with
  | S754_finite s _ _ => binary_normalize 53 1024 (rint (to_Q x)) 0 s
  | _ => x
  end.

Definition hundred : f64 := of_Z 100.

(** [numpy.around(x, 2)] *)
Definition np_round2 (x : f64) : f64 := fdiv (np_rint (fmul x hundred)) hundred.

Definition div_na_f64 (a b : f64) : option f64 :=
  match b with S754_zero _ => None | _ => Some (fdiv a b) end.

Definition fillna0_f64 (o : option f64) : f64 :=
  match o with
  | None | Some S754_nan => of_Z 0
  | Some v => v
  end.

Record metrics_f64 : Type := mk_metrics_f64 {
  ctr_f64 : f64;
  cpc_f64 : f64;
  roas_f64 : f64;
  conversion_rate_f64 : f64
}.

Definition compute_metrics_row_f64 (impressions clicks conversions cost revenue : f64)
  : metrics_f64 :=
  {| ctr_f64 := np_round2 (fillna0_f64 (option_map (fun v => fmul v hundred)
                                          (div_na_f64 clicks impressions)));
     cpc_f64 := np_round2 (fillna0_f64 (div_na_f64 cost clicks));
     roas_f64 := np_round2 (fillna0_f64 (div_na_f64 revenue cost));
     conversion_rate_f64 :=
       np_round2 (fillna0_f64 (option_map (fun v => fmul v hundred)
                                 (div_na_f64 conversions clicks))) |}.

(* ------------------------------------------------------------------ *)
(** ** Sorting: [sort_values(["date", "platform", "campaign_id"],
       ascending=[False, True, True])]

    pandas sorts on several keys with [lexsort_indexer], a stable sort;
    missing values go last whatever the direction ([na_position="last"]). *)

Definition cmp_date_desc (a b : option pystr) : comparison :=
  match a, b with
  | Some x, Some y => pystr_compare y x
  | Some _, None => Lt
  | None, Some _ => Gt
  | None, None => Eq
  end.

Definition cmp_row (a b : unified_row) : comparison :=
  match cmp_date_desc (date a) (date b) with
  | Eq =>
      match pystr_compare (platform a) (platform b) with
      | Eq => pystr_compare (campaign_id a) (campaign_id b)
      | c => c
      end
  | c => c
  end.

(** Inserts [x] before the first row that is not smaller than it. *)
Fixpoint insert_row (x : unified_row) (l : list unified_row) : list unified_row :=
  match l with
  | [] => [x]
  | y :: l' =>
      match cmp_row x y with
      | Gt => y :: insert_row x l'
      | _ => x :: y :: l'
      end
  end.

Fixpoint sort_values (l : list unified_row) : list unified_row :=
  match l with
  | [] => []
  | x :: l' => insert_row x (sort_values l')
  end.

(** The sort key of a row. *)
Definition sort_key (r : unified_row) : option pystr * pystr * pystr :=
  (date r, platform r, campaign_id r).

Definition key_eqb (k1 k2 : option pystr * pystr * pystr) : bool :=
  match k1, k2 with
  | (d1, p1, c1), (d2, p2, c2) =>
      match d1, d2 with
      | Some x, Some y => pystr_eqb x y
      | None, None => true
      | _, _ => false
      end && pystr_eqb p1 p2 && pystr_eqb c1 c2
  end.

(* ------------------------------------------------------------------ *)
(** ** Unifier ([clean_and_merge])

    A raw csv file either parses, giving its table, or makes [pd.read_csv]
    raise ([EmptyDataError] on an empty file, [ParserError] on a malformed
    one). The file system the function reads and writes: the two raw files
    ([None] when the file does not exist), whether [output_dir] exists, the
    unified csv, and the analytical store (untouched here). *)

Inductive csv_file : Type :=
| CsvTable (rows : list raw_row)
| CsvUnreadable.

Record fs : Type := mk_fs {
  google_ads_csv : option csv_file;
  facebook_ads_csv : option csv_file;
  clean_dir : bool;
  unified_ads_csv : option (list unified_row);
  store_table : option (list unified_row)
}.

(** The table of a raw file that exists and parses. *)
Definition table_of (c : option csv_file) : option (list raw_row) :=
  match c with Some (CsvTable rows) => Some rows | _ => None end.

(** What the function prints that matters to the caller. *)
Inductive msg : Type :=
| MsgLoading (file : string)
| MsgRows (rows : nat)
| MsgNotFound (file : string)
| MsgMerging
| MsgNormalizing
| MsgComputing
| MsgSaved (rows : nat)
| MsgCampaigns (n : nat)
| MsgPlatforms (platforms : list pystr)
| MsgDateRange (first last : option pystr)
| MsgMetricsComputed.

(** The outcome: the exception raised, or the returned DataFrame. *)
Inductive result : Type :=
| RReadError (file : string)
| RValueError (message : string)
| RTypeError
| ROk (df : list unified_row).

(** [Series.unique()]: the distinct values in order of first appearance;
    [nunique()] is its length. *)
Fixpoint unique (l : list pystr) : list pystr :=
  match l with
  | [] => []
  | x :: l' => x :: filter (fun y => negb (pystr_eqb x y)) (unique l')
  end.

Definition str_min (x : pystr) (l : list pystr) : pystr :=
  fold_left (fun m y => match pystr_compare y m with Lt => y | _ => m end) l x.

Definition str_max (x : pystr) (l : list pystr) : pystr :=
  fold_left (fun m y => match pystr_compare y m with Gt => y | _ => m end) l x.

(** [unified_df['date'].min()] and [.max()] on the object column of date
    strings. pandas' [nanmin]/[nanmax] put [inf] in place of the missing
    values before comparing, so a column mixing strings and [NaN] raises
    [TypeError] ([None] here); an empty or all-[NaN] column gives [NaN]. *)
Definition date_range (ds : list (option pystr)) : option (option pystr * option pystr) :=
  match flat_map (fun d => match d with Some x => [x] | None => [] end) ds with
  | [] => Some (None, None)
  | x :: xs =>
      if existsb (fun d => match d with None => true | Some _ => false end) ds
      then None
      else Some (Some (str_min x xs), Some (str_max x xs))
  end.

Section Unifier.

(** [pd.to_datetime(value, errors="coerce")] followed by
    [.dt.strftime("%Y-%m-%d")]: the ISO text of the parsed date, or [None]
    when pandas yields [NaT]. pandas' format inference is not modelled;
    every statement below holds for any such parser. *)
Variable to_datetime : pystr -> option pystr.

Definition normalize_row (r : raw_row) : raw_row :=
  {| raw_campaign_id := PStr (normalize_campaign_id (raw_campaign_id r) (raw_platform r));
     raw_campaign_name := raw_campaign_name r;
     raw_date := raw_date r;
     raw_platform := raw_platform r;
     raw_impressions := raw_impressions r;
     raw_clicks := raw_clicks r;
     raw_conversions := raw_conversions r;
     raw_cost := raw_cost r;
     raw_revenue := raw_revenue r |}.

Definition coerce_row (r : raw_row) : clean_row :=
  {| c_campaign_id := py_str (raw_campaign_id r);
     c_campaign_name := raw_campaign_name r;
     c_date := to_datetime (raw_date r);
     c_platform := raw_platform r;
     c_impressions := to_numeric_fill0 (raw_impressions r);
     c_clicks := to_numeric_fill0 (raw_clicks r);
     c_conversions := to_numeric_fill0 (raw_conversions r);
     c_cost := to_numeric_fill0 (raw_cost r);
     c_revenue := to_numeric_fill0 (raw_revenue r) |}.

(** Lines 84-96 for one file: the lines printed, and [None] when
    [pd.read_csv] raises, else [Some] of the table ([None] for a missing
    file). *)
Definition read_table (file : string) (c : option csv_file)
  : list msg * option (option (list raw_row)) :=
  match c with
  | None => ([MsgNotFound file], Some None)
  | Some CsvUnreadable => ([MsgLoading file], None)
  | Some (CsvTable rows) => ([MsgLoading file; MsgRows (length rows)], Some (Some rows))
  end.

Definition combine_tables (g f : option (list raw_row)) : option (list raw_row) :=
  match g, f with
  | Some g, Some f => Some (g ++ f)%list
  | Some g, None => Some g
  | None, Some f => Some f
  | None, None => None
  end.

Definition unify (unified_df : list raw_row) : list unified_row :=
  let unified_df := map normalize_row unified_df in
  let cleaned := map coerce_row unified_df in
  let unified := compute_metrics cleaned in
  sort_values unified.

Definition with_dir (st : fs) : fs :=
  {| google_ads_csv := google_ads_csv st;
     facebook_ads_csv := facebook_ads_csv st;
     clean_dir := true;
     unified_ads_csv := unified_ads_csv st;
     store_table := store_table st |}.

Definition with_csv (st : fs) (df : list unified_row) : fs :=
  {| google_ads_csv := google_ads_csv st;
     facebook_ads_csv := facebook_ads_csv st;
     clean_dir := clean_dir st;
     unified_ads_csv := Some df;
     store_table := store_table st |}.

Definition clean_and_merge (st : fs) : list msg * result * fs :=
  let st := with_dir st in
  let (log_g, google_df) := read_table "google_ads.csv" (google_ads_csv st) in
  match google_df with
  | None => (log_g, RReadError "google_ads.csv", st)
  | Some google_df =>
  let (log_f, facebook_df) := read_table "facebook_ads.csv" (facebook_ads_csv st) in
  let log := (log_g ++ log_f)%list in
  match facebook_df with
  | None => (log, RReadError "facebook_ads.csv", st)
  | Some facebook_df =>
  match combine_tables google_df facebook_df with
  | None => (log, RValueError "No data files found! Run fetch scripts first.", st)
  | Some df =>
      let merge := match google_df, facebook_df with
                   | Some _, Some _ => [MsgMerging]
                   | _, _ => []
                   end in
      let out := unify df in
      let st := with_csv st out in
      let log := (log ++ merge ++
                  [MsgNormalizing; MsgComputing; MsgSaved (length out);
                   MsgCampaigns (length (unique (map campaign_id out)));
                   MsgPlatforms (unique (map platform out))])%list in
      match date_range (map date out) with
      | None => (log, RTypeError, st)
      | Some (first, last) =>
          ((log ++ [MsgDateRange first last; MsgMetricsComputed])%list, ROk out, st)
      end
  end
  end
  end.

End Unifier.

(** A concrete date parser for examples: ISO [YYYY-MM-DD] with a valid
    calendar date, as pandas accepts it. *)
Local Open Scope nat_scope.

Definition digit (c : N) : option nat :=
  if ((48 <=? c) && (c <=? 57))%N then Some (N.to_nat (c - 48)) else None.

Definition leap (y : nat) : bool :=
  (Nat.eqb (y mod 4) 0 && negb (Nat.eqb (y mod 100) 0)) || Nat.eqb (y mod 400) 0.

Definition days_in_month (y m : nat) : nat :=
  match m with
  | 2 => if leap y then 29 else 28
  | 4 | 6 | 9 | 11 => 30
  | _ => 31
  end.

Definition parse_iso_date (s : pystr) : option pystr :=
  match s with
  | [y1; y2; y3; y4; s1; m1; m2; s2; d1; d2] =>
      if ((s1 =? 45) && (s2 =? 45))%N then
      match digit y1, digit y2, digit y3, digit y4,
            digit m1, digit m2, digit d1, digit d2 with
      | Some a, Some b, Some c, Some d, Some e, Some f, Some g, Some h =>
          let y := a * 1000 + b * 100 + c * 10 + d in
          let m := e * 10 + f in
          let dd := g * 10 + h in
          if (1 <=? m) && (m <=? 12) && (1 <=? dd) && (dd <=? days_in_month y m)
          then Some s else None
      | _, _, _, _, _, _, _, _ => None
      end
      else None
  | _ => None
  end.

Local Close Scope nat_scope.

(* ------------------------------------------------------------------ *)
(** ** Store writer ([load_to_duckdb])

    DuckDB runs each [conn.execute] in its own auto-committed transaction.
    The store is the content of table [ads_analytics] ([None]: no table).
    [fails] says which steps the environment makes raise (a print to a
    closed or non-UTF-8 stdout, a locked database file, a csv that does not
    parse, disk full, a table without the counted column, ...). *)

Section Store.

Variable row : Type.

(** The SQL statements [load_to_duckdb] executes. *)
Inductive stmt : Type :=
| DropTableIfExists
| CreateTableAs (df : list row)
| CreateIndex (column : string)
| SelectCount (what : string).

(** The steps of [load_to_duckdb] that can raise: the prints,
    [os.makedirs], [duckdb.connect], [pd.read_csv], the statements (with
    their [fetchone]) and [conn.close()]. *)
Inductive step : Type :=
| SPrint (line : nat)
| SMakedirs
| SConnect
| SReadCsv
| SExec (s : stmt)
| SClose.

(** A statement on the table: the new state, or [None] when DuckDB rejects
    it. *)
Definition exec_stmt (s : stmt) (t : option (list row)) : option (option (list row)) :=
  match s with
  | DropTableIfExists => Some None
  | CreateTableAs df =>
      match t with Some _ => None | None => Some (Some df) end
  | CreateIndex _ | SelectCount _ =>
      match t with Some _ => Some t | None => None end
  end.

Variable fails : step -> bool.

Definition run_step (s : step) (t : option (list row)) : option (option (list row)) :=
  if fails s then None
  else match s with
       | SExec q => exec_stmt q t
       | _ => Some t
       end.

(** A computation on the store: from the table before it, the states of
    the table after each completed step, whether an exception escapes, and
    the table at the end. *)
Definition M : Type :=
  option (list row) -> list (option (list row)) * bool * option (list row).

Definition ret : M := fun t => ([], false, t).

Definition exec (s : step) : M := fun t =>
  match run_step s t with
  | None => ([], true, t)
  | Some t' => ([t'], false, t')
  end.

(** [m1] then [m2], unless [m1] raised. *)
Definition andthen (m1 m2 : M) : M := fun t =>
  match m1 t with
  | (tr1, true, t1) => (tr1, true, t1)
  | (tr1, false, t1) =>
      let '(tr2, e2, t2) := m2 t1 in ((tr1 ++ tr2)%list, e2, t2)
  end.

(** [try: m except Exception: h] *)
Definition try_except (m h : M) : M := fun t =>
  match m t with
  | (tr1, true, t1) =>
      let '(tr2, e2, t2) := h t1 in ((tr1 ++ tr2)%list, e2, t2)
  | r => r
  end.

(** Steps run in sequence. *)
Definition execs (ss : list step) : M :=
  fold_right (fun s m => andthen (exec s) m) ret ss.

(** Lines 23-36: the prints, [os.makedirs], [duckdb.connect] and
    [pd.read_csv] before the first statement. *)
Definition steps_before_drop : list step :=
  [SPrint 23; SMakedirs; SConnect; SPrint 32; SReadCsv; SPrint 36].

(** Lines 45-47 *)
Definition index_steps : list step :=
  [SExec (CreateIndex "date"); SExec (CreateIndex "platform");
   SExec (CreateIndex "campaign_id")].

(** Lines 52-67: the three counts, [conn.close()] and the final prints. *)
Definition steps_after_indexes : list step :=
  [SExec (SelectCount "COUNT(*)"); SExec (SelectCount "COUNT(DISTINCT campaign_id)");
   SExec (SelectCount "COUNT(DISTINCT platform)"); SClose;
   SPrint 63; SPrint 64; SPrint 65; SPrint 66; SPrint 67].

(** [load_to_duckdb(csv_path, db_path)] where [df] is the frame
    [pd.read_csv] returns. Returns the states of the table visible after
    each completed step (starting with the prior one), whether an exception
    escaped, and the final state. *)
Definition load_to_duckdb (df : list row) (t : option (list row))
  : list (option (list row)) * bool * option (list row) :=
  let body :=
    andthen (execs steps_before_drop)
    (andthen (exec (SExec DropTableIfExists))
    (andthen (exec (SExec (CreateTableAs df)))
    (andthen (exec (SPrint 43))
    (andthen (try_except (execs index_steps) (exec (SPrint 49)))
             (execs steps_after_indexes))))) in
  let '(tr, raised, final) := body t in (t :: tr, raised, final).

(** Some step up to and including [CREATE TABLE] raises. *)
Definition fails_before_table (df : list row) : bool :=
  existsb fails (steps_before_drop ++ [SExec DropTableIfExists; SExec (CreateTableAs df)]).

End Store.

Arguments DropTableIfExists {row}.
Arguments CreateTableAs {row} df.
Arguments CreateIndex {row} column.
Arguments SelectCount {row} what.
Arguments SPrint {row} line.
Arguments SMakedirs {row}.
Arguments SConnect {row}.
Arguments SReadCsv {row}.
Arguments SExec {row} s.
Arguments SClose {row}.
Arguments steps_before_drop {row}.
Arguments index_steps {row}.
Arguments steps_after_indexes {row}.

(* ------------------------------------------------------------------ *)
(** ** numpy reductions *)

(** int64 arithmetic wraps around modulo 2^64. *)
Definition wrap64 (z : Z) : Z := ((z + 2 ^ 63) mod 2 ^ 64) - 2 ^ 63.

(** [sum] of an int64 column *)
Definition int_sum (xs : list Z) : Z := fold_left (fun acc x => wrap64 (acc + x)) xs 0%Z.

(** numpy's pairwise summation of a float64 array ([pairwise_sum] in
    [loops_utils.h]): below 8 elements a left-to-right sum from [-0.0]; up
    to 128 elements eight interleaved partial sums, combined as
    [((r0+r1)+(r2+r3))+((r4+r5)+(r6+r7))], then the remainder added in
    order; above, the two halves (split at a multiple of 8) summed
    recursively. *)
Definition pw_block (xs : list f64) : f64 :=
  let n := length xs in
  let m := (n - n mod 8)%nat in
  let lane j := fold_left (fun acc k => fadd acc (nth (j + 8 * k) xs f64_zero))
                          (List.seq 1 (m / 8 - 1)) (nth j xs f64_zero) in
  let res := fadd (fadd (fadd (lane 0%nat) (lane 1%nat)) (fadd (lane 2%nat) (lane 3%nat)))
                  (fadd (fadd (lane 4%nat) (lane 5%nat)) (fadd (lane 6%nat) (lane 7%nat))) in
  fold_left fadd (skipn m xs) res.

(** [fuel] bounds the depth of the halving; [length xs] is enough, so the
    last branch is never reached from [pairwise_sum]. *)
Fixpoint pairwise_sum_aux (fuel : nat) (xs : list f64) : f64 :=
  let n := length xs in
  if (n <? 8)%nat then fold_left fadd xs f64_negzero
  else if (n <=? 128)%nat then pw_block xs
  else match fuel with
       | O => fold_left fadd xs f64_negzero
       | S fuel' =>
           let n2 := (n / 2 - (n / 2) mod 8)%nat in
           fadd (pairwise_sum_aux fuel' (firstn n2 xs))
                (pairwise_sum_aux fuel' (skipn n2 xs))
       end.

Definition pairwise_sum (xs : list f64) : f64 := pairwise_sum_aux (length xs) xs.

(** [np.add.reduce] over a float64 array: the identity [-0.0] plus the
    pairwise sum; [0.0] for an empty array. *)
Definition np_sum (xs : list f64) : f64 :=
  match xs with
  | [] => f64_zero
  | _ => fadd f64_negzero (pairwise_sum xs)
  end.

(** pandas' [nansum] / [nanmean] first replace [NaN] by [0.0]. *)
Definition fill_nan0 (xs : list f64) : list f64 :=
  map (fun x => if f64_isnan x then f64_zero else x) xs.

Definition count_valid (xs : list f64) : nat :=
  length (filter (fun x => negb (f64_isnan x)) xs).

(** [Series.sum()] of a float64 column *)
Definition series_sum (xs : list f64) : f64 := np_sum (fill_nan0 xs).

(** [Series.mean()] of a float64 column: [NaN] when no value is present. *)
Definition series_mean (xs : list f64) : f64 :=
  match count_valid xs with
  | O => f64_nan
  | n => fdiv (np_sum (fill_nan0 xs)) (of_Z (Z.of_nat n))
  end.

(* ------------------------------------------------------------------ *)
(** ** Dashboard KPI summary ([main] in [src/dashboard/app.py]) *)

Module Dashboard.

(** A row of the dashboard's data frame (the columns the KPIs read), as
    [generate_demo_data] builds it: [date] is a day number; the counts are
    int64 columns, the money and score columns float64. *)
Record row : Type := mk_row {
  date : Z;
  region : pystr;
  product_name : pystr;
  orders : Z;
  revenue : f64;
  new_customers : Z;
  repeat_customers : Z;
  avg_order_value : f64;
  gross_margin : f64;
  customer_lifetime_value : f64;
  cogs : f64;
  marketing_spend : f64;
  nps_score : f64;
  customer_acquisition_cost : f64
}.

(** [filtered_df = df[(date >= start) & (date <= end) & region.isin(...) &
    product_name.isin(...)]] *)
Definition filter_rows (start_date end_date : Z) (regions products : list pystr)
  (df : list row) : list row :=
  filter (fun r => (start_date <=? date r)%Z && (date r <=? end_date)%Z
                   && existsb (pystr_eqb (region r)) regions
                   && existsb (pystr_eqb (product_name r)) products) df.

Record kpis : Type := mk_kpis {
  total_revenue : f64;
  total_orders : Z;
  total_customers : Z;
  avg_order_value_k : f64;
  avg_gross_margin : f64;
  avg_customer_lifetime_value : f64;
  total_cogs : f64;
  total_marketing_spend : f64;
  avg_nps : f64;
  avg_customer_acquisition_cost : f64
}.

(** Lines 438-447 *)
Definition kpi_summary (filtered_df : list row) : kpis :=
  {| total_revenue := series_sum (map revenue filtered_df);
     total_orders := int_sum (map orders filtered_df);
     total_customers := wrap64 (int_sum (map new_customers filtered_df)
                                + int_sum (map repeat_customers filtered_df));
     avg_order_value_k := series_mean (map avg_order_value filtered_df);
     avg_gross_margin := series_mean (map gross_margin filtered_df);
     avg_customer_lifetime_value := series_mean (map customer_lifetime_value filtered_df);
     total_cogs := series_sum (map cogs filtered_df);
     total_marketing_spend := series_sum (map marketing_spend filtered_df);
     avg_nps := series_mean (map nps_score filtered_df);
     avg_customer_acquisition_cost :=
       series_mean (map customer_acquisition_cost filtered_df) |}.

End Dashboard.

(* ------------------------------------------------------------------ *)
(** ** Helpers for the statements on [clean_and_merge] *)

(** Number of rows of a raw table, 0 when its file is missing. *)
Definition n_rows (t : option (list raw_row)) : nat :=
  match t with Some l => length l | None => 0 end.

(** [df] is the unified frame [clean_and_merge] produced: returned, or
    written to the csv before the date-range print raised [TypeError]. *)
Definition produced (res : result) (st' : fs) (df : list unified_row) : Prop :=
  res = ROk df \/ (res = RTypeError /\ unified_ads_csv st' = Some df).

(** A comparison of [x ? y], [y ? z] and [x ? z] that fits a total order
    whose [Eq] is equality. *)
Definition comp_coherent (ab bc ac : comparison) : Prop :=
  (ab = Lt -> bc = Lt -> ac = Lt) /\ (ab = Eq -> ac = bc) /\ (bc = Eq -> ac = ab).

Definition lex (c1 c2 : comparison) : comparison :=
  match c1 with Eq => c2 | c => c end.

(* ------------------------------------------------------------------ *)
(** ** The loader's entry point ([main] in [src/etl/load_to_duckdb.py]) *)

(** [main] checks that the unified csv exists, and otherwise prints an error
    and returns without touching the database; else it runs
    [load_to_duckdb] on the frame that [pd.read_csv] reads back from the
    csv. The csv round trip is the parameter [read_csv]. The first result
    tells whether [load_to_duckdb] ran, the second whether it raised. *)
Definition load_main (read_csv : list unified_row -> list unified_row)
  (fails : step unified_row -> bool) (st : fs) : bool * bool * fs :=
  match unified_ads_csv st with
  | None => (false, false, st)
  | Some csv =>
      let '(_, raised, final) :=
        load_to_duckdb unified_row fails (read_csv csv) (store_table st) in
      (true, raised,
       {| google_ads_csv := google_ads_csv st;
          facebook_ads_csv := facebook_ads_csv st;
          clean_dir := clean_dir st;
          unified_ads_csv := unified_ads_csv st;
          store_table := final |})
  end.

(* ------------------------------------------------------------------ *)
(** ** Dashboard filters, groupings and the region radar *)

Module DashboardCharts.
Import Dashboard.

(** The default date range of the date filter; dates are day numbers.
    Returns [(default_start, max_date)]; the widget's bounds are
    [min_date] and that [max_date]. *)
Definition date_defaults (min_date max_date : Z) : Z * Z :=
  let max_date := if (max_date <=? min_date)%Z then (min_date + 1)%Z else max_date in
  let default_start := Z.max min_date (max_date - 30) in
  (default_start, max_date).

(** The contribution margin card:
    [(total_revenue - total_cogs - total_marketing_spend) / total_revenue]
    on numpy float64 scalars. *)
Definition contribution_margin (k : kpis) : f64 :=
  fdiv (fsub (fsub (total_revenue k) (total_cogs k)) (total_marketing_spend k))
       (total_revenue k).

(** [df.groupby(key).agg(...)]: the groups' keys in ascending order, one
    per distinct key, and the rows of each group in frame order. *)
Section GroupBy.

Variable K : Type.
Variable cmp : K -> K -> comparison.

Fixpoint insert_key (k : K) (ks : list K) : list K :=
  match ks with
  | [] => [k]
  | k' :: ks' =>
      match cmp k k' with
      | Lt => k :: ks
      | Eq => ks
      | Gt => k' :: insert_key k ks'
      end
  end.

Definition group_keys (key : row -> K) (df : list row) : list K :=
  fold_right (fun r ks => insert_key (key r) ks) [] df.

Definition group_rows (key : row -> K) (df : list row) (k : K) : list row :=
  filter (fun r => match cmp (key r) k with Eq => true | _ => false end) df.

(** An int64 column aggregated with ["sum"]. *)
Definition groupby_int_sum (key : row -> K) (f : row -> Z) (df : list row)
  : list (K * Z) :=
  map (fun k => (k, int_sum (map f (group_rows key df k)))) (group_keys key df).

End GroupBy.

Arguments insert_key {K} cmp k ks.
Arguments group_keys {K} cmp key df.
Arguments group_rows {K} cmp key df k.
Arguments groupby_int_sum {K} cmp key f df.

(** [region_df = filtered_df.groupby("region")]: keys compared as strings;
    its int64 columns. *)
Definition region_int_sum (f : row -> Z) (df : list row) : list (pystr * Z) :=
  groupby_int_sum pystr_compare region f df.

(** The columns of [region_df] that [create_region_radar] reads. *)
Record region_stats : Type := mk_region_stats {
  rs_region : pystr;
  rs_orders : Q;
  rs_revenue : Q;
  rs_gross_margin : Q;
  rs_new_customers : Q;
  rs_nps_score : Q;
  rs_inventory_turnover : Q
}.

(** [Series.max()]: [None] stands for the [NaN] of an empty column. *)
Definition col_max (xs : list Q) : option Q :=
  match xs with
  | [] => None
  | x :: xs' => Some (fold_left (fun m y => if Qlt_le_dec m y then y else m) xs' x)
  end.

(** [NaN * 1.2] is [NaN]. *)
Definition scale12 (m : option Q) : option Q := option_map (fun x => x * (6 # 5)) m.

(** Python's builtin [max(a, b)]: [b] if [b > a], else [a]; a [NaN] first
    argument is kept, as no comparison with it holds. *)
Definition py_max (a : option Q) (b : Q) : option Q :=
  match a with
  | None => None
  | Some x => Some (if Qlt_le_dec x b then b else x)
  end.

(** The radar's indicators: axis name and axis maximum. *)
Definition radar_indicators (region_df : list region_stats) : list (string * option Q) :=
  [("Orders", scale12 (col_max (map rs_orders region_df)));
   ("Revenue", scale12 (col_max (map rs_revenue region_df)));
   ("Gross Margin", scale12 (col_max (map rs_gross_margin region_df)));
   ("New Customers", scale12 (col_max (map rs_new_customers region_df)));
   ("NPS Score", py_max (scale12 (col_max (map rs_nps_score region_df))) 50);
   ("Inv. Turnover", scale12 (col_max (map rs_inventory_turnover region_df)))].

End DashboardCharts.

(* ================================================================== *)
(** * Proofs *)

(* ------------------------------------------------------------------ *)
(** ** Facts on the string helpers *)

Lemma is_prefix_app (p t : pystr) : is_prefix p (p ++ t)%list = true.
Proof.
  induction p as [|c p IH]; simpl; [reflexivity|].
  rewrite N.eqb_refl. exact IH.
Qed.

(** Two prefixes of one string: one is a prefix of the other. *)
Lemma prefix_common (p q x : pystr) :
  is_prefix p x = true -> is_prefix q x = true ->
  is_prefix p q = true \/ is_prefix q p = true.
Proof.
  revert q x; induction p as [|c p IH]; intros q x Hp Hq; [left; reflexivity|].
  destruct q as [|d q]; [right; reflexivity|].
  destruct x as [|e x]; simpl in Hp; [discriminate|].
  simpl in Hq.
  apply andb_prop in Hp as [Hce Hp]. apply andb_prop in Hq as [Hde Hq].
  apply N.eqb_eq in Hce, Hde. subst.
  simpl. rewrite N.eqb_refl. apply (IH q x Hp Hq).
Qed.

Lemma lead_ok_lstrip (s : pystr) : lead_ok (lstrip s) = true.
Proof.
  induction s as [|c s IH]; simpl; [reflexivity|].
  destruct (py_isspace c) eqn:E; [exact IH|simpl; now rewrite E].
Qed.

Lemma lstrip_lead_ok (s : pystr) : lead_ok s = true -> lstrip s = s.
Proof.
  destruct s as [|c s]; simpl; [reflexivity|].
  intro H. destruct (py_isspace c); [discriminate|reflexivity].
Qed.

Lemma lead_ok_rstrip (s : pystr) : lead_ok s = true -> lead_ok (rstrip s) = true.
Proof.
  destruct s as [|c s]; simpl; [reflexivity|].
  intro H. destruct (rstrip s); [|exact H].
  destruct (py_isspace c) eqn:W; [reflexivity|simpl; now rewrite W].
Qed.

Lemma rstrip_cons (c : N) (t : pystr) :
  rstrip t <> [] -> rstrip (c :: t) = c :: rstrip t.
Proof. intro H. simpl. destruct (rstrip t); [congruence|reflexivity]. Qed.

Lemma rstrip_idem (s : pystr) : rstrip (rstrip s) = rstrip s.
Proof.
  induction s as [|c s IH]; [reflexivity|].
  destruct (rstrip s) as [|a r] eqn:E.
  - simpl. rewrite E.
    destruct (py_isspace c) eqn:W; simpl; [reflexivity|now rewrite W].
  - rewrite (rstrip_cons c s) by (rewrite E; discriminate).
    rewrite E, rstrip_cons, IH; [reflexivity|rewrite IH; discriminate].
Qed.

Lemma strip_idem (s : pystr) : strip (strip s) = strip s.
Proof.
  unfold strip.
  rewrite (lstrip_lead_ok (rstrip (lstrip s))).
  - apply rstrip_idem.
  - apply lead_ok_rstrip, lead_ok_lstrip.
Qed.

Lemma rstrip_app (x y : pystr) :
  rstrip y <> [] -> rstrip (x ++ y)%list = (x ++ rstrip y)%list.
Proof.
  intro Hy. induction x as [|c x IH]; simpl; [reflexivity|].
  rewrite IH. destruct x; simpl.
  - destruct (rstrip y); [congruence|reflexivity].
  - reflexivity.
Qed.

Lemma rstrip_underscore (s : pystr) : rstrip (95%N :: s) = 95%N :: rstrip s.
Proof. simpl. destruct (rstrip s); reflexivity. Qed.

(** [p ++ "_" ++ s] with [s] already stripped is left alone by [strip]. *)
Lemma strip_platform_sep (p s : pystr) :
  lead_ok p = true -> rstrip s = s -> strip (p ++ u "_" ++ s)%list = (p ++ u "_" ++ s)%list.
Proof.
  intros Hp Hs. unfold strip.
  rewrite lstrip_lead_ok.
  - change (u "_" ++ s)%list with (95%N :: s).
    rewrite rstrip_app; rewrite rstrip_underscore; [|discriminate].
    rewrite Hs. reflexivity.
  - destruct p; [reflexivity|exact Hp].
Qed.

(* ------------------------------------------------------------------ *)
(** ** Identifier normalizer *)

(** The normalized id starts with the platform string. *)
Lemma startswith_normalize_campaign_id (v : pyval) (p : pystr) :
  startswith (normalize_campaign_id v p) p = true.
Proof.
  unfold normalize_campaign_id, startswith.
  destruct (isna v); [apply is_prefix_app|].
  destruct (is_prefix p (strip (py_str v))) eqn:E; simpl;
    [exact E|apply is_prefix_app].
Qed.

(** C3 (counterexample): with the platform [" g"] (leading blank),
    normalizing the id ["1"] gives [" g_1"], and normalizing that again gives
    [" g_g_1"]: [strip] removes the platform's leading blank from the id.
    The same happens with a leading no-break space (U+00A0), which
    [str.strip()] removes as well. *)
Lemma normalize_campaign_id_not_idempotent :
  normalize_campaign_id (PStr (normalize_campaign_id (PStr (u "1")) (u " g"))) (u " g")
  <> normalize_campaign_id (PStr (u "1")) (u " g") /\
  normalize_campaign_id (PStr (u "1")) (u " g") = u " g_1" /\
  normalize_campaign_id (PStr (normalize_campaign_id (PStr (u "1")) (u " g"))) (u " g")
  = u " g_g_1" /\
  normalize_campaign_id (PStr (normalize_campaign_id (PStr (u "1")) [160%N; 103%N]))
    [160%N; 103%N]
  = ([160%N; 103%N] ++ u "_g_1")%list.
Proof. split; [vm_compute; discriminate|repeat split; vm_compute; reflexivity]. Qed.

(** C3 (amended): [normalize_campaign_id] is idempotent for every raw id and
    every platform string whose first character (if any) is not one that
    [str.isspace()] accepts. *)
Theorem normalize_campaign_id_idempotent (v : pyval) (p : pystr) :
  lead_ok p = true ->
  normalize_campaign_id (PStr (normalize_campaign_id v p)) p
  = normalize_campaign_id v p.
Proof.
  intro Hp.
  pose proof (startswith_normalize_campaign_id v p) as Hpre.
  assert (Hstrip : strip (normalize_campaign_id v p) = normalize_campaign_id v p).
  { unfold normalize_campaign_id.
    destruct (isna v).
    - apply strip_platform_sep; [exact Hp|reflexivity].
    - destruct (startswith (strip (py_str v)) p); simpl.
      + apply strip_idem.
      + apply strip_platform_sep; [exact Hp|apply rstrip_idem]. }
  unfold normalize_campaign_id at 1. simpl isna. cbv iota.
  simpl py_str. rewrite Hstrip, Hpre. reflexivity.
Qed.

(** C4 (counterexample): the platforms ["google_ads"] and ["google"] map the
    raw id ["google_ads_42"] to the same normalized id. *)
Lemma normalize_campaign_id_collision :
  u "google_ads" <> u "google" /\
  normalize_campaign_id (PStr (u "google_ads_42")) (u "google_ads")
  = normalize_campaign_id (PStr (u "google_ads_42")) (u "google").
Proof. split; [discriminate|vm_compute; reflexivity]. Qed.

(** C4 (amended): for two platform strings neither of which is a prefix of
    the other (such as ["google_ads"] and ["facebook_ads"]), the normalized
    ids of the same raw id differ. *)
Theorem normalize_campaign_id_platforms_distinct (v : pyval) (p q : pystr) :
  is_prefix p q = false -> is_prefix q p = false ->
  normalize_campaign_id v p <> normalize_campaign_id v q.
Proof.
  intros Hpq Hqp Heq.
  pose proof (startswith_normalize_campaign_id v p) as Hp.
  pose proof (startswith_normalize_campaign_id v q) as Hq.
  unfold startswith in Hp, Hq. rewrite Heq in Hp.
  destruct (prefix_common p q _ Hp Hq) as [H|H]; congruence.
Qed.

(* ------------------------------------------------------------------ *)
(** ** String order *)

Lemma pystr_compare_refl (s : pystr) : pystr_compare s s = Eq.
Proof.
  induction s as [|c s IH]; simpl; [reflexivity|].
  rewrite N.compare_refl. exact IH.
Qed.

Lemma pystr_compare_antisym (a b : pystr) :
  pystr_compare b a = CompOpp (pystr_compare a b).
Proof.
  revert b; induction a as [|x a IH]; intros [|y b]; simpl; try reflexivity.
  rewrite (N.compare_antisym x y).
  destruct (N.compare x y); simpl; [apply IH|reflexivity|reflexivity].
Qed.

Lemma pystr_compare_eq (a b : pystr) : pystr_compare a b = Eq <-> a = b.
Proof.
  split; [|intros ->; apply pystr_compare_refl].
  revert b; induction a as [|x a IH]; intros [|y b]; simpl; try discriminate;
    [reflexivity|].
  destruct (N.compare_spec x y) as [->|_|_]; try discriminate.
  intro H. rewrite (IH b H). reflexivity.
Qed.

Lemma pystr_compare_lt_trans (s1 s2 s3 : pystr) :
  pystr_compare s1 s2 = Lt -> pystr_compare s2 s3 = Lt ->
  pystr_compare s1 s3 = Lt.
Proof.
  revert s2 s3.
  induction s1 as [|a s1 IH]; intros [|b s2] [|c s3] H1 H2; simpl in *;
    try discriminate; try reflexivity.
  destruct (N.compare_spec a b) as [Eab|Lab|Gab];
  destruct (N.compare_spec b c) as [Ebc|Lbc|Gbc];
  destruct (N.compare_spec a c) as [Eac|Lac|Gac];
  try discriminate; try reflexivity; try lia.
  eapply IH; eassumption.
Qed.

Lemma pystr_eqb_eq (a b : pystr) : pystr_eqb a b = true <-> a = b.
Proof.
  unfold pystr_eqb. rewrite <- pystr_compare_eq.
  destruct (pystr_compare a b); split; congruence.
Qed.

(* ------------------------------------------------------------------ *)
(** ** The sort: permutation, order, stability *)

(** [a] may precede [b] in the sorted frame. *)
Definition row_le (a b : unified_row) : Prop := cmp_row a b <> Gt.

Lemma cmp_date_desc_antisym (a b : option pystr) :
  cmp_date_desc a b = CompOpp (cmp_date_desc b a).
Proof.
  destruct a, b; simpl; try reflexivity. apply pystr_compare_antisym.
Qed.

Lemma cmp_row_antisym (a b : unified_row) :
  cmp_row a b = CompOpp (cmp_row b a).
Proof.
  unfold cmp_row. rewrite (cmp_date_desc_antisym (date a)).
  destruct (cmp_date_desc (date b) (date a)); simpl; try reflexivity.
  rewrite (pystr_compare_antisym (platform b)).
  destruct (pystr_compare (platform b) (platform a)); simpl; try reflexivity.
  apply pystr_compare_antisym.
Qed.

Lemma key_eqb_eq (k1 k2 : option pystr * pystr * pystr) :
  key_eqb k1 k2 = true -> k1 = k2.
Proof.
  destruct k1 as [[d1 p1] c1], k2 as [[d2 p2] c2]; simpl.
  intro H. apply andb_prop in H as [H Hc]. apply andb_prop in H as [Hd Hp].
  apply pystr_eqb_eq in Hp, Hc. subst.
  destruct d1, d2; try discriminate; [apply pystr_eqb_eq in Hd; subst|]; reflexivity.
Qed.

Lemma cmp_row_same_key (a b : unified_row) :
  sort_key a = sort_key b -> cmp_row a b = Eq.
Proof.
  unfold sort_key, cmp_row. intro H. inversion H as [[Hd Hp Hc]].
  rewrite Hd, Hp, Hc. destruct (date b); simpl;
    rewrite !pystr_compare_refl; try rewrite pystr_compare_refl; reflexivity.
Qed.

Lemma insert_row_perm (x : unified_row) (l : list unified_row) :
  Permutation (insert_row x l) (x :: l).
Proof.
  induction l as [|y l IH]; simpl; [reflexivity|].
  destruct (cmp_row x y); try reflexivity.
  eapply perm_trans; [apply perm_skip, IH|apply perm_swap].
Qed.

Lemma sort_values_perm (l : list unified_row) : Permutation (sort_values l) l.
Proof.
  induction l as [|x l IH]; simpl; [reflexivity|].
  eapply perm_trans; [apply insert_row_perm|apply perm_skip, IH].
Qed.

Lemma HdRel_insert_row (y x : unified_row) (l : list unified_row) :
  HdRel row_le y l -> row_le y x -> HdRel row_le y (insert_row x l).
Proof.
  intros H Hyx. destruct l as [|z l]; simpl; [constructor; exact Hyx|].
  destruct (cmp_row x z); constructor; try exact Hyx.
  inversion H; assumption.
Qed.

Lemma insert_row_sorted (x : unified_row) (l : list unified_row) :
  Sorted row_le l -> Sorted row_le (insert_row x l).
Proof.
  induction l as [|y l IH]; intro H; simpl; [repeat constructor|].
  destruct (cmp_row x y) eqn:E.
  - constructor; [exact H|constructor; unfold row_le; congruence].
  - constructor; [exact H|constructor; unfold row_le; congruence].
  - apply Sorted_inv in H as [Hl Hhd].
    constructor; [apply IH, Hl|].
    apply HdRel_insert_row; [exact Hhd|].
    unfold row_le. rewrite cmp_row_antisym, E. discriminate.
Qed.

Lemma sort_values_sorted (l : list unified_row) : Sorted row_le (sort_values l).
Proof.
  induction l as [|x l IH]; simpl; [constructor|].
  apply insert_row_sorted, IH.
Qed.

Section Stability.

Variable P : unified_row -> bool.
(** [P] selects rows of one equivalence class of the sort order. *)
Hypothesis P_class :
  forall x y, P x = true -> P y = true -> cmp_row x y = Eq.

Lemma filter_insert_row (x : unified_row) (l : list unified_row) :
  filter P (insert_row x l) = filter P (x :: l).
Proof.
  induction l as [|y l IH]; simpl; [reflexivity|].
  destruct (cmp_row x y) eqn:E; try reflexivity.
  simpl. rewrite IH. simpl.
  destruct (P x) eqn:Px, (P y) eqn:Py; try reflexivity.
  rewrite (P_class x y Px Py) in E. discriminate.
Qed.

Lemma filter_sort_values (l : list unified_row) :
  filter P (sort_values l) = filter P l.
Proof.
  induction l as [|x l IH]; simpl; [reflexivity|].
  rewrite filter_insert_row. simpl. rewrite IH. reflexivity.
Qed.

End Stability.

Lemma filter_sort_values_key (k : option pystr * pystr * pystr)
  (l : list unified_row) :
  filter (fun u => key_eqb (sort_key u) k) (sort_values l)
  = filter (fun u => key_eqb (sort_key u) k) l.
Proof.
  apply filter_sort_values.
  intros x y Hx Hy. apply cmp_row_same_key.
  apply key_eqb_eq in Hx, Hy. congruence.
Qed.

(* ------------------------------------------------------------------ *)
(** ** The unifier *)

(** The frame [clean_and_merge] produces is the unification of the
    concatenated readable tables, and it is what the csv holds afterwards. *)
Lemma clean_and_merge_produced (td : pystr -> option pystr) (st : fs)
  (log : list msg) (res : result) (st' : fs) (df : list unified_row) :
  clean_and_merge td st = (log, res, st') -> produced res st' df ->
  exists rows,
    combine_tables (table_of (google_ads_csv st)) (table_of (facebook_ads_csv st))
    = Some rows /\
    df = unify td rows /\ unified_ads_csv st' = Some df.
Proof.
  unfold clean_and_merge, produced. cbn [with_dir google_ads_csv facebook_ads_csv].
  destruct (google_ads_csv st) as [[g|]|], (facebook_ads_csv st) as [[f|]|];
    cbn [read_table table_of combine_tables];
    try (destruct (date_range _) as [[lo hi]|]);
    intro H; injection H as <- <- <-; intros [Hr|[Hr Hc]]; try discriminate;
    try (injection Hr as <-);
    try (cbn [with_csv unified_ads_csv] in Hc; injection Hc as <-);
    eexists; (split; [reflexivity|split; reflexivity]).
Qed.

(** The row of the unified frame built from a raw row. *)
Definition unified_of (td : pystr -> option pystr) (r : raw_row) : unified_row :=
  compute_metrics_row (coerce_row td (normalize_row r)).

Lemma in_unified (td : pystr -> option pystr) (rows : list raw_row)
  (x : unified_row) :
  In x (unify td rows) <-> exists r, In r rows /\ x = unified_of td r.
Proof.
  unfold unify. split.
  - intro H. apply (Permutation_in _ (sort_values_perm _)) in H.
    unfold compute_metrics in H. rewrite !map_map in H.
    apply in_map_iff in H as [r [Hu Hr]]. exists r. split; [exact Hr|].
    symmetry. exact Hu.
  - intros [r [Hr ->]]. apply (Permutation_in _ (Permutation_sym (sort_values_perm _))).
    unfold compute_metrics. rewrite !map_map. apply in_map_iff.
    exists r. split; [reflexivity|exact Hr].
Qed.

Lemma unify_length (td : pystr -> option pystr) (rows : list raw_row) :
  length (unify td rows) = length rows.
Proof.
  unfold unify, compute_metrics.
  rewrite (Permutation_length (sort_values_perm _)), !length_map. reflexivity.
Qed.

Lemma round2_0 : round2 0 == 0.
Proof. unfold Qeq. vm_compute. reflexivity. Qed.

(** The formulas of §3/§4.3 of the spec: ratio rounded to two decimals,
    0 when the denominator is 0. *)
Definition metrics_as_specified (x : unified_row) : Prop :=
  ctr x == (if Qeq_bool (impressions x) 0 then 0
            else round2 (clicks x / impressions x * 100)) /\
  cpc x == (if Qeq_bool (clicks x) 0 then 0 else round2 (cost x / clicks x)) /\
  roas x == (if Qeq_bool (cost x) 0 then 0 else round2 (revenue x / cost x)) /\
  conversion_rate x == (if Qeq_bool (clicks x) 0 then 0
                        else round2 (conversions x / clicks x * 100)).

Lemma compute_metrics_row_spec (r : clean_row) :
  metrics_as_specified (compute_metrics_row r).
Proof.
  unfold metrics_as_specified, compute_metrics_row, div_na; simpl.
  repeat split;
    match goal with
    | |- context [Qeq_bool ?b 0] => destruct (Qeq_bool b 0)
    end; simpl; try apply round2_0; reflexivity.
Qed.

(** C1: every row of the unified frame produced by [clean_and_merge] (the
    frame it returns, or writes before raising at the date-range print) has
    [ctr = round2(clicks/impressions*100)] when [impressions <> 0] and
    [ctr = 0] when [impressions = 0]; likewise [cpc] (cost/clicks), [roas]
    (revenue/cost) and [conversion_rate] (conversions/clicks*100). The
    functions are total: a zero denominator yields 0. *)
Theorem clean_and_merge_metrics (td : pystr -> option pystr) (st : fs)
  (log : list msg) (res : result) (st' : fs) (df : list unified_row) :
  clean_and_merge td st = (log, res, st') -> produced res st' df ->
  Forall metrics_as_specified df.
Proof.
  intros H Hp. destruct (clean_and_merge_produced _ _ _ _ _ _ H Hp) as [rows [_ [-> _]]].
  apply Forall_forall. intros x Hx.
  apply in_unified in Hx as [r [_ ->]].
  apply compute_metrics_row_spec.
Qed.

(** C2: the frame produced by [clean_and_merge] is sorted by
    (date descending, platform ascending, campaign_id ascending), with
    missing dates last; it is a permutation of the normalized, metric-enriched
    input rows; and the sort is stable: the rows sharing a key appear in the
    order they have in the concatenated input. *)
Theorem clean_and_merge_sorted_stable (td : pystr -> option pystr) (st : fs)
  (log : list msg) (res : result) (st' : fs) (df : list unified_row) :
  clean_and_merge td st = (log, res, st') -> produced res st' df ->
  exists rows,
    combine_tables (table_of (google_ads_csv st)) (table_of (facebook_ads_csv st))
    = Some rows /\
    let pre := map (unified_of td) rows in
    Sorted row_le df /\ Permutation df pre /\
    forall k, filter (fun x => key_eqb (sort_key x) k) df
              = filter (fun x => key_eqb (sort_key x) k) pre.
Proof.
  intros H Hp. destruct (clean_and_merge_produced _ _ _ _ _ _ H Hp) as [rows [Hc [-> _]]].
  exists rows. split; [exact Hc|].
  assert (Hpre : compute_metrics (map (coerce_row td) (map normalize_row rows))
                 = map (unified_of td) rows).
  { unfold compute_metrics. rewrite !map_map. reflexivity. }
  unfold unify. rewrite Hpre. repeat split.
  - apply sort_values_sorted.
  - apply sort_values_perm.
  - intro k. apply filter_sort_values_key.
Qed.

(** C10: [normalize_campaign_id] returns a string that starts with the
    platform string, for every raw id (missing, integer, or a string to be
    stripped); hence every [campaign_id] of the unified frame starts with its
    row's [platform]. *)
Theorem unified_campaign_id_startswith_platform (td : pystr -> option pystr)
  (st : fs) (log : list msg) (res : result) (st' : fs) (df : list unified_row) :
  clean_and_merge td st = (log, res, st') -> produced res st' df ->
  (forall v p, startswith (normalize_campaign_id v p) p = true) /\
  Forall (fun x => startswith (campaign_id x) (platform x) = true) df.
Proof.
  intros H Hp. split; [apply startswith_normalize_campaign_id|].
  destruct (clean_and_merge_produced _ _ _ _ _ _ H Hp) as [rows [_ [-> _]]].
  apply Forall_forall. intros x Hx.
  apply in_unified in Hx as [r [_ ->]].
  apply startswith_normalize_campaign_id.
Qed.




(** Example input: one Google row, and two Facebook rows of which one has
    non-numeric conversions and one a missing campaign id. *)
Definition demo_google : list raw_row :=
  [mk_raw (PInt 42) (u "spring") (u "2024-01-05") (u "google_ads")
     (NNum 100) (NNum 10) (NNum 1) (NNum 5) (NNum 20)].

Definition demo_facebook : list raw_row :=
  [mk_raw (PStr (u " 42 ")) (u "summer") (u "2024-01-05") (u "facebook_ads")
     (NNum 0) (NNum 0) NBad (NNum 0) (NNum 3);
   mk_raw PNA (u "autumn") (u "2024-02-29") (u "facebook_ads")
     (NNum 8) (NNum 8) (NNum 1) (NNum 5) (NNum 20)].

Definition demo_fs : fs :=
  mk_fs (Some (CsvTable demo_google)) (Some (CsvTable demo_facebook)) false None None.

Definition demo_run : list msg * result * fs := clean_and_merge parse_iso_date demo_fs.

Definition demo_log : list msg := fst (fst demo_run).

Definition demo_df : list unified_row :=
  match snd (fst demo_run) with ROk d => d | _ => [] end.

Definition demo_fs' : fs := snd demo_run.





Lemma demo_run_ok :
  clean_and_merge parse_iso_date demo_fs = (demo_log, ROk demo_df, demo_fs').
Proof. vm_compute. reflexivity. Qed.





(* ------------------------------------------------------------------ *)
(** ** Rounding of the metrics *)

Lemma inject_Z_succ (f : Z) : inject_Z (f + 1) == inject_Z f + 1.
Proof. rewrite inject_Z_plus. reflexivity. Qed.

Lemma Z_even_succ_odd (f : Z) : Z.even f = false -> Z.even (f + 1) = true.
Proof.
  intro H. rewrite Z.add_1_r, Z.even_succ, <- Z.negb_even, H. reflexivity.
Qed.

(** [rint] rounds to the nearest integer, an exact tie to the even one. *)
Lemma rint_half_even (y : Q) :
  inject_Z (rint y) - y <= 1 # 2 /\ y - inject_Z (rint y) <= 1 # 2 /\
  ((inject_Z (rint y) - y == 1 # 2 \/ y - inject_Z (rint y) == 1 # 2) ->
   Z.even (rint y) = true).
Proof.
  pose proof (Qfloor_le y) as Hlo. pose proof (Qlt_floor y) as Hhi.
  rewrite inject_Z_succ in Hhi.
  unfold rint. set (f := Qfloor y) in *.
  destruct (Qcompare (y - inject_Z f) (1 # 2)) eqn:E.
  - apply Qeq_alt in E.
    destruct (Z.even f) eqn:Ev.
    + repeat split; [lra|lra|intros _; exact Ev].
    + rewrite inject_Z_succ. repeat split; [lra|lra|].
      intros _. apply Z_even_succ_odd, Ev.
  - apply Qlt_alt in E.
    repeat split; [lra|lra|intros [H|H]; exfalso; lra].
  - apply Qgt_alt in E. rewrite inject_Z_succ.
    repeat split; [lra|lra|intros [H|H]; exfalso; lra].
Qed.

(** [cpc] in float64 for [cost] and [clicks] (other columns arbitrary). *)
Definition cpc_of (cost_ clicks_ : Z) : f64 :=
  cpc_f64 (compute_metrics_row_f64 (of_Z 100) (of_Z clicks_) (of_Z 1) (of_Z cost_) (of_Z 20)).

(** C8 (counterexample): [cost = 5], [clicks = 8] give the exact ratio
    0.625; the code yields [cpc = 0.62] (exactly and in float64), while
    half-up rounding gives 0.63. *)
Lemma cpc_tie_rounds_half_even :
  let r := mk_clean (u "google_ads_1") (u "tie") (Some (u "2024-01-01")) (u "google_ads")
             100 8 1 5 20 in
  cpc (compute_metrics_row r) == 62 # 100 /\
  round2_half_up_spec (5 / 8) == 63 # 100 /\
  ~ (cpc (compute_metrics_row r) == round2_half_up_spec (5 / 8)) /\
  cpc_of 5 8 = dec 62 2 /\ cpc_of 5 8 <> dec 63 2.
Proof.
  split; [|split; [|split; [|split]]].
  - unfold Qeq. vm_compute. reflexivity.
  - unfold Qeq. vm_compute. reflexivity.
  - unfold Qeq. vm_compute. intro H. discriminate H.
  - vm_compute. reflexivity.
  - vm_compute. discriminate.
Qed.

(** C8 (amended): [round(2)] is numpy's [around] on float64: the value is
    multiplied by [100.0] (rounded to binary64), [rint] rounds that product
    to the nearest integer with ties to even, and the result is divided by
    [100.0]. Ratios whose exact decimal value ends in 5 at the third decimal
    are therefore rounded neither half-up nor half-even as a rule: 5/8 gives
    0.62 and 3/8 gives 0.38 (the product is an exact binary tie, to even),
    23/40 gives 0.57 (the product falls below the tie), 49/40 gives 1.23
    (above it). [clicks = 1], [impressions = 8000] gives [ctr = 0.01], as
    half-up rounding does too. *)
Theorem metrics_round_float64_ties :
  (forall y : Q,
     inject_Z (rint y) - y <= 1 # 2 /\ y - inject_Z (rint y) <= 1 # 2 /\
     ((inject_Z (rint y) - y == 1 # 2 \/ y - inject_Z (rint y) == 1 # 2) ->
      Z.even (rint y) = true)) /\
  cpc_of 5 8 = dec 62 2 /\ round2_half_up_spec (5 / 8) == 63 # 100 /\
  cpc_of 3 8 = dec 38 2 /\ round2_half_up_spec (3 / 8) == 38 # 100 /\
  cpc_of 23 40 = dec 57 2 /\ round2_half_up_spec (23 / 40) == 58 # 100 /\
  cpc_of 49 40 = dec 123 2 /\ round2_half_up_spec (49 / 40) == 123 # 100 /\
  ctr_f64 (compute_metrics_row_f64 (of_Z 8000) (of_Z 1) (of_Z 0) (of_Z 0) (of_Z 0))
  = dec 1 2 /\
  round2_half_up_spec (1 / 8000 * 100) == 1 # 100.
Proof.
  split; [exact rint_half_even|].
  repeat split; first [vm_compute; reflexivity|unfold Qeq; vm_compute; reflexivity].
Qed.

(* ------------------------------------------------------------------ *)
(** ** The store writer *)

Section StoreFacts.

Variable row : Type.
Variable fails : step row -> bool.


(** A step that leaves the table [t] as it is, unless it raises. *)
Definition keeps (s : step row) (t : option (list row)) : Prop :=
  run_step row fails s t = if fails s then None else Some t.

(** [m], run on [t], leaves [t] in place after each of its steps, and
    raises as [e] says. *)
Definition keeping (m : M row) (t : option (list row)) (e : bool) : Prop :=
  exists k, m t = (repeat t k, e, t).

Lemma exec_keeping (s : step row) (t : option (list row)) :
  keeps s t -> keeping (exec row fails s) t (fails s).
Proof.
  unfold keeps, keeping, exec. intro H. rewrite H.
  destruct (fails s); [exists 0%nat|exists 1%nat]; reflexivity.
Qed.

Lemma andthen_keeping (m1 m2 : M row) (t : option (list row)) (e1 e2 : bool) :
  keeping m1 t e1 -> keeping m2 t e2 -> keeping (andthen row m1 m2) t (e1 || e2).
Proof.
  intros [k1 H1] [k2 H2]. unfold keeping, andthen. rewrite H1.
  destruct e1; simpl; [exists k1; reflexivity|].
  rewrite H2. exists (k1 + k2)%nat. rewrite repeat_app. reflexivity.
Qed.

Lemma try_keeping (m h : M row) (t : option (list row)) (e1 e2 : bool) :
  keeping m t e1 -> keeping h t e2 -> keeping (try_except row m h) t (e1 && e2).
Proof.
  intros [k1 H1] [k2 H2]. unfold keeping, try_except. rewrite H1.
  destruct e1; simpl; [|exists k1; reflexivity].
  rewrite H2. exists (k1 + k2)%nat. rewrite repeat_app. reflexivity.
Qed.

Lemma execs_keeping (ss : list (step row)) (t : option (list row)) :
  Forall (fun s => keeps s t) ss -> keeping (execs row fails ss) t (existsb fails ss).
Proof.
  induction 1 as [|s ss Hs _ IH].
  - exists 0%nat. reflexivity.
  - exact (andthen_keeping _ _ t _ _ (exec_keeping s t Hs) IH).
Qed.

Lemma andthen_raise (m1 m2 : M row) (t : option (list row)) tr t1 :
  m1 t = (tr, true, t1) -> andthen row m1 m2 t = (tr, true, t1).
Proof. intro H. unfold andthen. rewrite H. reflexivity. Qed.

Lemma andthen_ok (m1 m2 : M row) (t : option (list row)) tr1 t1 tr2 e2 t2 :
  m1 t = (tr1, false, t1) -> m2 t1 = (tr2, e2, t2) ->
  andthen row m1 m2 t = ((tr1 ++ tr2)%list, e2, t2).
Proof. intros H1 H2. unfold andthen. rewrite H1, H2. reflexivity. Qed.

Lemma exec_run (s : step row) (t : option (list row)) :
  exec row fails s t = match run_step row fails s t with
             | None => ([], true, t)
             | Some t' => ([t'], false, t')
             end.
Proof. reflexivity. Qed.

(** What [load_to_duckdb] does to the table: the states it passes through
    are the prior table, then no table, then the new dataset; a failure up
    to [DROP] keeps the prior table, a failed [CREATE] leaves none; past
    [CREATE] the table holds the new dataset, whatever raises later. *)
Lemma load_to_duckdb_run (df : list row) (t : option (list row)) :
  let '(trace, raised, final) := load_to_duckdb row fails df t in
  (exists a b c, trace = (t :: repeat t a ++ repeat None b ++ repeat (Some df) c)%list) /\
  (if existsb fails steps_before_drop || fails (SExec DropTableIfExists)
   then raised = true /\ final = t
   else if fails (SExec (CreateTableAs df))
   then raised = true /\ final = None
   else final = Some df /\ In None trace /\
        raised = fails (SPrint 43) || (existsb fails index_steps && fails (SPrint 49))
                 || existsb fails steps_after_indexes).
Proof.
  unfold load_to_duckdb.
  assert (Hplain : forall s t', (forall q, s <> SExec q) -> keeps s t').
  { intros s t' Hs. unfold keeps, run_step. destruct (fails s); [reflexivity|].
    destruct s; try reflexivity. exfalso. exact (Hs _ eq_refl). }
  destruct (execs_keeping steps_before_drop t) as [k0 E0].
  { repeat constructor; apply Hplain; discriminate. }
  destruct (existsb fails steps_before_drop) eqn:Eb.
  { rewrite (andthen_raise _ _ _ _ _ E0). simpl orb.
    split; [exists k0, 0%nat, 0%nat; rewrite !app_nil_r; reflexivity|split; reflexivity]. }
  simpl orb.
  destruct (fails (SExec DropTableIfExists)) eqn:Ed.
  { assert (E1 : exec row fails (SExec DropTableIfExists) t = ([], true, t))
      by (rewrite exec_run; unfold run_step; rewrite Ed; reflexivity).
    rewrite (andthen_ok _ _ _ _ _ _ _ _ E0 (andthen_raise _ _ _ _ _ E1)).
    split; [exists k0, 0%nat, 0%nat; rewrite !app_nil_r; reflexivity|split; reflexivity]. }
  assert (E1 : exec row fails (SExec DropTableIfExists) t = ([None], false, None))
    by (rewrite exec_run; unfold run_step; rewrite Ed; reflexivity).
  destruct (fails (SExec (CreateTableAs df))) eqn:Ec.
  { assert (E2 : exec row fails (SExec (CreateTableAs df)) None = ([], true, None))
      by (rewrite exec_run; unfold run_step; rewrite Ec; reflexivity).
    rewrite (andthen_ok _ _ _ _ _ _ _ _ E0
               (andthen_ok _ _ _ _ _ _ _ _ E1 (andthen_raise _ _ _ _ _ E2))).
    split; [exists k0, 1%nat, 0%nat; rewrite !app_nil_r; reflexivity|split; reflexivity]. }
  assert (E2 : exec row fails (SExec (CreateTableAs df)) None = ([Some df], false, Some df))
    by (rewrite exec_run; unfold run_step; rewrite Ec; reflexivity).
  assert (Ht : keeping
     (andthen row (exec row fails (SPrint 43))
        (andthen row (try_except row (execs row fails index_steps) (exec row fails (SPrint 49)))
                 (execs row fails steps_after_indexes))) (Some df)
     (fails (SPrint 43) || (existsb fails index_steps && fails (SPrint 49)
                            || existsb fails steps_after_indexes))).
  { apply andthen_keeping; [apply exec_keeping, Hplain; discriminate|].
    apply andthen_keeping; [apply try_keeping|].
    - apply execs_keeping. repeat constructor; unfold keeps, run_step;
        destruct (fails _); reflexivity.
    - apply exec_keeping, Hplain; discriminate.
    - apply execs_keeping. repeat constructor;
        try (apply Hplain; discriminate);
        unfold keeps, run_step; destruct (fails _); reflexivity. }
  destruct Ht as [k3 E3].
  rewrite (andthen_ok _ _ _ _ _ _ _ _ E0
             (andthen_ok _ _ _ _ _ _ _ _ E1 (andthen_ok _ _ _ _ _ _ _ _ E2 E3))).
  split; [exists k0, 1%nat, (S k3); reflexivity|].
  split; [reflexivity|split].
  - right. apply in_or_app. right. left. reflexivity.
  - rewrite orb_assoc. reflexivity.
Qed.

End StoreFacts.

(** C7 (counterexample): with a prior table [[1]] and a [CREATE TABLE] that
    fails, [load_to_duckdb] raises and leaves no table at all: neither the
    prior dataset nor the new one [[2]]. *)
Lemma load_to_duckdb_failed_create_drops_table :
  let fails := fun s : step nat =>
                 match s with SExec (CreateTableAs _) => true | _ => false end in
  let '(trace, raised, final) := load_to_duckdb nat fails [2%nat] (Some [1%nat]) in
  raised = true /\ final = None /\
  final <> Some [1%nat] /\ final <> Some [2%nat] /\ In None trace.
Proof.
  vm_compute. split; [reflexivity|split; [reflexivity|split; [|split]]];
    try (intro H; discriminate H).
  repeat (try (left; reflexivity); right).
Qed.

(** C7 (amended): [load_to_duckdb] runs [DROP TABLE IF EXISTS] and
    [CREATE TABLE ... AS] as two separately committed statements, so the
    table goes from the prior contents to no table, then to the complete
    new dataset, and through no other state. If a step up to and including
    [DROP] raises (a print, [os.makedirs], [duckdb.connect], [read_csv]),
    the prior table is kept; if [CREATE] raises, the store is left with no
    table. Once [CREATE] has run the table holds exactly the new dataset,
    whether or not a later step (index creation, the counts,
    [conn.close()], a print) raises. *)
Theorem load_to_duckdb_states (row : Type) (fails : step row -> bool)
  (df : list row) (t : option (list row)) :
  let '(trace, raised, final) := load_to_duckdb row fails df t in
  (exists a b c, trace = (t :: repeat t a ++ repeat None b ++ repeat (Some df) c)%list) /\
  (if existsb fails steps_before_drop || fails (SExec DropTableIfExists)
   then raised = true /\ final = t
   else if fails (SExec (CreateTableAs df))
   then raised = true /\ final = None
   else final = Some df /\ In None trace /\
        raised = fails (SPrint 43) || (existsb fails index_steps && fails (SPrint 49))
                 || existsb fails steps_after_indexes).
Proof. exact (load_to_duckdb_run row fails df t). Qed.

(* ------------------------------------------------------------------ *)
(** ** int64 sums *)

Local Open Scope Z_scope.

(** Exact sum of a list of integers. *)
Definition zsum (xs : list Z) : Z := fold_right Z.add 0%Z xs.

Lemma wrap64_mod (a : Z) : wrap64 a + 2 ^ 63 = (a + 2 ^ 63) mod 2 ^ 64.
Proof. unfold wrap64. lia. Qed.

Lemma wrap64_add_wrap_l (a x : Z) : wrap64 (wrap64 a + x) = wrap64 (a + x).
Proof.
  unfold wrap64 at 1 3.
  replace (wrap64 a + x + 2 ^ 63) with ((wrap64 a + 2 ^ 63) + x) by lia.
  rewrite wrap64_mod, Zplus_mod_idemp_l.
  replace (a + 2 ^ 63 + x) with (a + x + 2 ^ 63) by lia. reflexivity.
Qed.

Lemma wrap64_add_cong (a b x : Z) :
  wrap64 a = wrap64 b -> wrap64 (x + a) = wrap64 (x + b).
Proof.
  intro H. assert (Hm : (a + 2 ^ 63) mod 2 ^ 64 = (b + 2 ^ 63) mod 2 ^ 64).
  { rewrite <- !wrap64_mod. rewrite H. reflexivity. }
  unfold wrap64.
  replace (x + a + 2 ^ 63) with (x + (a + 2 ^ 63)) by lia.
  replace (x + b + 2 ^ 63) with (x + (b + 2 ^ 63)) by lia.
  rewrite (Zplus_mod x (a + 2 ^ 63)), (Zplus_mod x (b + 2 ^ 63)), Hm. reflexivity.
Qed.

(** An int64 sum is the exact sum wrapped around once. *)
Lemma int_sum_wrap (xs : list Z) : int_sum xs = wrap64 (zsum xs).
Proof.
  unfold int_sum.
  assert (G : forall a, fold_left (fun acc x => wrap64 (acc + x)) xs (wrap64 a)
                        = wrap64 (a + zsum xs)).
  { induction xs as [|x xs IH]; intro a; simpl.
    - rewrite Z.add_0_r. reflexivity.
    - rewrite wrap64_add_wrap_l, IH. f_equal. lia. }
  change 0%Z with (wrap64 0). rewrite G. reflexivity.
Qed.

Lemma zsum_perm (l l' : list Z) : Permutation l l' -> zsum l = zsum l'.
Proof.
  unfold zsum. induction 1; simpl; lia.
Qed.

Lemma zsum_wrap_each (A : Type) (g : A -> Z) (ks : list A) :
  wrap64 (zsum (map (fun k => wrap64 (g k)) ks)) = wrap64 (zsum (map g ks)).
Proof.
  induction ks as [|k ks IH]; simpl; [reflexivity|].
  rewrite wrap64_add_wrap_l, (Z.add_comm (g k)), (Z.add_comm (g k)).
  rewrite <- wrap64_add_wrap_l, <- (wrap64_add_wrap_l (zsum (map g ks))).
  rewrite <- IH, wrap64_add_wrap_l. reflexivity.
Qed.

Local Close Scope Z_scope.

(* ------------------------------------------------------------------ *)
(** ** The KPI summary *)

Module DashboardFacts.
Import Dashboard.

Lemma filter_rows_perm (s e : Z) (regions products : list pystr) (df df' : list row) :
  Permutation df df' ->
  Permutation (filter_rows s e regions products df) (filter_rows s e regions products df').
Proof.
  unfold filter_rows. set (g := fun r : row => _).
  induction 1 as [|x l l' _ IH|x y l|l l' l'' _ IH1 _ IH2]; simpl.
  - constructor.
  - destruct (g x); [apply perm_skip|]; exact IH.
  - destruct (g x), (g y); try apply perm_swap; reflexivity.
  - eapply perm_trans; [exact IH1|exact IH2].
Qed.

(** Three rows whose revenues are 0.1, 0.2 and 0.3. *)
Definition sum_row (d : Z) (rev : f64) : row :=
  mk_row d (u "West_Coast") (u "Coconut Water") 1 rev 1 0
    (of_Z 10) (dec 5 1) (of_Z 100) (of_Z 0) (of_Z 0) (of_Z 40) (of_Z 5).

Definition sum_rows : list row :=
  [sum_row 1 (dec 1 1); sum_row 2 (dec 2 1); sum_row 3 (dec 3 1)].

Definition select_all (df : list row) : list row :=
  filter_rows 0 10 [u "West_Coast"; u "Midwest"]
    [u "Coconut Water"; u "Cold Brew Coffee"] df.

(** C9 (counterexample): the float64 revenue total depends on the order of
    the rows: 0.1 + 0.2 + 0.3 sums to 0.6000000000000001, and the same rows
    reversed to 0.6. *)
Lemma kpi_float_total_order_dependent :
  Permutation sum_rows (rev sum_rows) /\
  total_revenue (kpi_summary (select_all sum_rows)) = dec 6000000000000001 16 /\
  total_revenue (kpi_summary (select_all (rev sum_rows))) = dec 6 1 /\
  dec 6000000000000001 16 <> dec 6 1.
Proof.
  split; [apply Permutation_rev|].
  split; [vm_compute; reflexivity|split; [vm_compute; reflexivity|]].
  vm_compute. discriminate.
Qed.

(** C9 (amended): for a data frame [df] and any reordering [df'] of it,
    the int64 totals of the filtered rows (Total Orders, Total Customers)
    are equal, each being the exact sum wrapped to int64. The float64
    totals (revenue, COGS, marketing spend) are numpy's pairwise sums of the
    filtered column in frame order, and may change with the order. Each
    averaged KPI is [Series.mean] of the per-row column over the filtered
    rows ([NaN] when no row passes), not a rate recomputed from summed
    columns. *)
Theorem kpi_summary_int_sums_perm_means_per_row (df df' : list row) (s e : Z)
  (regions products : list pystr) :
  Permutation df df' ->
  let fd := filter_rows s e regions products df in
  let k := kpi_summary fd in
  let k' := kpi_summary (filter_rows s e regions products df') in
  total_orders k = total_orders k' /\
  total_customers k = total_customers k' /\
  total_orders k = wrap64 (zsum (map orders fd)) /\
  total_customers k
  = wrap64 (zsum (map new_customers fd) + zsum (map repeat_customers fd)) /\
  total_revenue k = series_sum (map revenue fd) /\
  total_cogs k = series_sum (map cogs fd) /\
  total_marketing_spend k = series_sum (map marketing_spend fd) /\
  avg_order_value_k k = series_mean (map avg_order_value fd) /\
  avg_gross_margin k = series_mean (map gross_margin fd) /\
  avg_customer_lifetime_value k = series_mean (map customer_lifetime_value fd) /\
  avg_nps k = series_mean (map nps_score fd) /\
  avg_customer_acquisition_cost k = series_mean (map customer_acquisition_cost fd) /\
  (fd = [] -> avg_gross_margin k = f64_nan).
Proof.
  intro H. pose proof (filter_rows_perm s e regions products _ _ H) as Hf.
  cbv zeta. unfold kpi_summary; cbn [total_orders total_customers total_revenue
    total_cogs total_marketing_spend avg_order_value_k avg_gross_margin
    avg_customer_lifetime_value avg_nps avg_customer_acquisition_cost].
  rewrite !int_sum_wrap.
  rewrite (zsum_perm (map orders _) _ (Permutation_map orders Hf)).
  rewrite (zsum_perm (map new_customers _) _ (Permutation_map new_customers Hf)).
  rewrite (zsum_perm (map repeat_customers _) _ (Permutation_map repeat_customers Hf)).
  split; [reflexivity|split; [reflexivity|]].
  rewrite <- (zsum_perm (map orders _) _ (Permutation_map orders Hf)).
  rewrite <- (zsum_perm (map new_customers _) _ (Permutation_map new_customers Hf)).
  rewrite <- (zsum_perm (map repeat_customers _) _ (Permutation_map repeat_customers Hf)).
  split; [reflexivity|split].
  - rewrite wrap64_add_wrap_l, Z.add_comm, wrap64_add_wrap_l, Z.add_comm.
    reflexivity.
  - repeat split. intros ->. reflexivity.
Qed.

(** Two rows whose per-row gross margins 0.1 and 0.9 average to 0.5, while
    the margin of the summed revenue and COGS is 19/110. *)
Definition demo_row1 : row := mk_row 1 (u "West_Coast") (u "Coconut Water")
  1 (of_Z 100) 1 0 (of_Z 100) (dec 1 1) (of_Z 10) (of_Z 90) (of_Z 10) (of_Z 30) (of_Z 5).
Definition demo_row2 : row := mk_row 2 (u "Midwest") (u "Cold Brew Coffee")
  1 (of_Z 10) 0 1 (of_Z 10) (dec 9 1) (of_Z 10) (of_Z 1) (of_Z 2) (of_Z 40) (of_Z 0).

Lemma avg_gross_margin_not_rate :
  avg_gross_margin (kpi_summary [demo_row1; demo_row2]) = dec 5 1 /\
  fdiv (fsub (total_revenue (kpi_summary [demo_row1; demo_row2]))
             (total_cogs (kpi_summary [demo_row1; demo_row2])))
       (total_revenue (kpi_summary [demo_row1; demo_row2]))
  = fdiv (of_Z 19) (of_Z 110) /\
  fdiv (of_Z 19) (of_Z 110) <> dec 5 1.
Proof.
  split; [vm_compute; reflexivity|split; [vm_compute; reflexivity|]].
  vm_compute. discriminate.
Qed.

Lemma kpi_summary_int_sums_perm_means_per_row_witness :
  Permutation [demo_row1; demo_row2] [demo_row2; demo_row1] /\
  total_customers (kpi_summary (select_all [demo_row1; demo_row2]))
  = total_customers (kpi_summary (select_all [demo_row2; demo_row1])).
Proof.
  split; [apply perm_swap|].
  apply (kpi_summary_int_sums_perm_means_per_row [demo_row1; demo_row2]
           [demo_row2; demo_row1] 0 10 [u "West_Coast"; u "Midwest"]
           [u "Coconut Water"; u "Cold Brew Coffee"] (perm_swap _ _ _)).
Defined.

End DashboardFacts.

(* ------------------------------------------------------------------ *)
(** ** Witnesses on the example input *)

Lemma clean_and_merge_metrics_witness :
  clean_and_merge parse_iso_date demo_fs = (demo_log, ROk demo_df, demo_fs') /\
  Forall metrics_as_specified demo_df.
Proof.
  assert (H : clean_and_merge parse_iso_date demo_fs
              = (demo_log, ROk demo_df, demo_fs')) by (vm_compute; reflexivity).
  split; [exact H|exact (clean_and_merge_metrics _ _ _ _ _ _ H (or_introl eq_refl))].
Defined.

Lemma clean_and_merge_sorted_stable_witness :
  clean_and_merge parse_iso_date demo_fs = (demo_log, ROk demo_df, demo_fs') /\
  Sorted row_le demo_df.
Proof.
  assert (H : clean_and_merge parse_iso_date demo_fs
              = (demo_log, ROk demo_df, demo_fs')) by (vm_compute; reflexivity).
  split; [exact H|].
  destruct (clean_and_merge_sorted_stable _ _ _ _ _ _ H (or_introl eq_refl))
    as [rows [_ [Hs _]]].
  exact Hs.
Defined.

Lemma unified_campaign_id_startswith_platform_witness :
  clean_and_merge parse_iso_date demo_fs = (demo_log, ROk demo_df, demo_fs') /\
  Forall (fun x => startswith (campaign_id x) (platform x) = true) demo_df.
Proof.
  assert (H : clean_and_merge parse_iso_date demo_fs
              = (demo_log, ROk demo_df, demo_fs')) by (vm_compute; reflexivity).
  split; [exact H|].
  exact (proj2 (unified_campaign_id_startswith_platform _ _ _ _ _ _ H (or_introl eq_refl))).
Defined.


Lemma normalize_campaign_id_idempotent_witness :
  lead_ok (u "google_ads") = true /\
  normalize_campaign_id (PStr (normalize_campaign_id (PStr (u " 42 ")) (u "google_ads")))
    (u "google_ads") = normalize_campaign_id (PStr (u " 42 ")) (u "google_ads").
Proof.
  split; [reflexivity|].
  apply normalize_campaign_id_idempotent. reflexivity.
Defined.

Lemma normalize_campaign_id_platforms_distinct_witness :
  is_prefix (u "google_ads") (u "facebook_ads") = false /\
  is_prefix (u "facebook_ads") (u "google_ads") = false /\
  normalize_campaign_id (PInt 42) (u "google_ads")
  <> normalize_campaign_id (PInt 42) (u "facebook_ads").
Proof.
  split; [reflexivity|split; [reflexivity|]].
  apply normalize_campaign_id_platforms_distinct; reflexivity.
Defined.

(* ================================================================== *)
(** * Further properties of the ETL code *)

(* ------------------------------------------------------------------ *)
(** ** Rounding is monotone and keeps 0 and 100 *)

Lemma rint_close (y : Q) :
  inject_Z (rint y) - y <= 1 # 2 /\ y - inject_Z (rint y) <= 1 # 2.
Proof.
  pose proof (Qfloor_le y) as Hlo. pose proof (Qlt_floor y) as Hhi.
  rewrite inject_Z_succ in Hhi.
  unfold rint. set (f := Qfloor y) in *.
  destruct (Qcompare (y - inject_Z f) (1 # 2)) eqn:E.
  - apply Qeq_alt in E.
    destruct (Z.even f); [|rewrite inject_Z_succ]; split; lra.
  - apply Qlt_alt in E. split; lra.
  - apply Qgt_alt in E. rewrite inject_Z_succ. split; lra.
Qed.

Lemma rint_comp (x y : Q) : x == y -> rint x = rint y.
Proof.
  intro H. unfold rint. rewrite (Qfloor_comp x y H).
  assert (E : Qcompare (x - inject_Z (Qfloor y)) (1 # 2)
              = Qcompare (y - inject_Z (Qfloor y)) (1 # 2))
    by (apply Qcompare_comp; [apply Qplus_comp; [exact H|reflexivity]|reflexivity]).
  rewrite E. reflexivity.
Qed.

Lemma rint_mono (x y : Q) : x <= y -> (rint x <= rint y)%Z.
Proof.
  intro Hxy. destruct (Z_le_gt_dec (rint x) (rint y)) as [|Hgt]; [assumption|].
  exfalso.
  assert (Hz : (rint y + 1 <= rint x)%Z) by lia.
  rewrite Zle_Qle, inject_Z_succ in Hz.
  destruct (rint_close x) as [Hx1 _]. destruct (rint_close y) as [_ Hy2].
  assert (Heq : x == y) by lra.
  rewrite (rint_comp x y Heq) in Hz. lra.
Qed.

Lemma round2_comp (x y : Q) : x == y -> round2 x = round2 y.
Proof.
  intro H. unfold round2.
  rewrite (rint_comp (x * 100) (y * 100)); [reflexivity|].
  apply Qmult_comp; [exact H|reflexivity].
Qed.

Lemma round2_mono (x y : Q) : x <= y -> round2 x <= round2 y.
Proof.
  intro H. unfold round2, Qdiv. apply Qmult_le_compat_r.
  - rewrite <- Zle_Qle. apply rint_mono. lra.
  - unfold Qle. simpl. lia.
Qed.


Lemma fillna0_div_nonneg (a b : Q) :
  0 <= a -> 0 <= b -> 0 <= fillna0 (div_na a b).
Proof.
  intros Ha Hb. unfold div_na. destruct (Qeq_bool b 0) eqn:E; simpl; [lra|].
  apply Qle_shift_div_l; [|lra].
  destruct (Qle_lt_or_eq 0 b Hb) as [|Hz]; [assumption|].
  exfalso. apply Qeq_bool_neq in E. apply E. symmetry. exact Hz.
Qed.



(** [compute_metrics]: when impressions, clicks, conversions, cost and
    revenue are all non-negative, so are the four metrics. *)
Theorem compute_metrics_nonneg (r : clean_row) :
  0 <= c_impressions r -> 0 <= c_clicks r -> 0 <= c_conversions r ->
  0 <= c_cost r -> 0 <= c_revenue r ->
  0 <= ctr (compute_metrics_row r) /\ 0 <= cpc (compute_metrics_row r) /\
  0 <= roas (compute_metrics_row r) /\ 0 <= conversion_rate (compute_metrics_row r).
Proof.
  intros Hi Hc Hv Hk Hr. simpl.
  assert (Hp : forall a b, 0 <= a -> 0 <= b ->
             0 <= fillna0 (option_map (fun v => v * 100) (div_na a b))).
  { intros a b Ha Hb. pose proof (fillna0_div_nonneg a b Ha Hb) as H.
    unfold div_na in *. destruct (Qeq_bool b 0); simpl in *; lra. }
  repeat split; rewrite <- round2_0; apply round2_mono; auto using fillna0_div_nonneg.
Qed.

Lemma compute_metrics_nonneg_witness :
  let r := mk_clean (u "google_ads_1") (u "a") (Some (u "2024-01-01")) (u "google_ads") 100 10 1 5 20 in
  (0 <= c_impressions r /\ 0 <= c_clicks r /\ 0 <= c_conversions r /\
   0 <= c_cost r /\ 0 <= c_revenue r) /\
  0 <= cpc (compute_metrics_row r).
Proof.
  cbv zeta.
  split; [repeat split; unfold Qle; simpl; lia|].
  apply (compute_metrics_nonneg
           (mk_clean (u "google_ads_1") (u "a") (Some (u "2024-01-01")) (u "google_ads") 100 10 1 5 20));
    unfold Qle; simpl; lia.
Defined.

(* ------------------------------------------------------------------ *)
(** ** Numeric coercion *)

(** [clean_and_merge]: a non-numeric cost cell becomes cost 0 and gives
    [cpc = 0] and [roas = 0]; a non-numeric clicks cell becomes clicks 0 and
    gives [ctr = 0], [cpc = 0] and [conversion_rate = 0]. *)
Theorem non_numeric_cells_zero_metrics (td : pystr -> option pystr) (r : raw_row) :
  (raw_cost r = NBad ->
   cost (unified_of td r) == 0 /\ cpc (unified_of td r) == 0 /\
   roas (unified_of td r) == 0) /\
  (raw_clicks r = NBad ->
   clicks (unified_of td r) == 0 /\ ctr (unified_of td r) == 0 /\
   cpc (unified_of td r) == 0 /\ conversion_rate (unified_of td r) == 0).
Proof.
  unfold unified_of, compute_metrics_row, coerce_row; simpl.
  split; intro H; rewrite H; simpl.
  - split; [reflexivity|]. split.
    + unfold div_na. destruct (Qeq_bool _ 0); simpl; [apply round2_0|].
      rewrite (round2_comp (0 / _) 0) by (unfold Qdiv; apply Qmult_0_l).
      apply round2_0.
    + apply round2_0.
  - split; [reflexivity|]. split; [|split; apply round2_0].
    unfold div_na. destruct (Qeq_bool _ 0); simpl; [apply round2_0|].
    rewrite (round2_comp (0 / _ * 100) 0)
      by (unfold Qdiv; rewrite Qmult_0_l; apply Qmult_0_l).
    apply round2_0.
Qed.

(* ------------------------------------------------------------------ *)
(** ** Identifier normalizer: whitespace and prefixed forms *)

(** [normalize_campaign_id]: ids differing only by surrounding whitespace
    normalize to the same id. *)
Theorem normalize_campaign_id_strip_invariant (s p : pystr) :
  normalize_campaign_id (PStr s) p = normalize_campaign_id (PStr (strip s)) p.
Proof.
  unfold normalize_campaign_id. simpl. rewrite strip_idem. reflexivity.
Qed.

(** [normalize_campaign_id]: on one platform [p] whose first character is
    not one [str.isspace()] accepts (the full Unicode set of [py_isspace]), a
    stripped raw id [s] not starting with [p] and the raw id [p ++ "_" ++ s]
    normalize to the same id, e.g. ["42"] and ["google_ads_42"]. *)
Theorem normalize_campaign_id_prefixed_same (p s : pystr) :
  lead_ok p = true -> strip s = s -> startswith s p = false ->
  normalize_campaign_id (PStr s) p = normalize_campaign_id (PStr (p ++ u "_" ++ s)%list) p.
Proof.
  intros Hp Hs Hn. unfold normalize_campaign_id. cbn [isna py_str].
  rewrite Hs, Hn. cbn [negb].
  assert (Hr : rstrip s = s) by (rewrite <- Hs; unfold strip; apply rstrip_idem).
  rewrite (strip_platform_sep p s Hp Hr).
  unfold startswith. rewrite is_prefix_app. reflexivity.
Qed.

Lemma normalize_campaign_id_prefixed_same_witness :
  (lead_ok (u "google_ads") = true /\ strip (u "42") = u "42" /\
   startswith (u "42") (u "google_ads") = false) /\
  normalize_campaign_id (PStr (u "42")) (u "google_ads")
  = normalize_campaign_id (PStr (u "google_ads" ++ u "_" ++ u "42")%list) (u "google_ads").
Proof.
  split; [repeat split; reflexivity|].
  apply normalize_campaign_id_prefixed_same; reflexivity.
Defined.

(* ------------------------------------------------------------------ *)
(** ** The sort order is a total preorder *)

Lemma lex_le_trans (ab bc ac ab' bc' ac' : comparison) :
  comp_coherent ab bc ac ->
  (ab = Eq -> bc = Eq -> ab' <> Gt -> bc' <> Gt -> ac' <> Gt) ->
  lex ab ab' <> Gt -> lex bc bc' <> Gt -> lex ac ac' <> Gt.
Proof.
  intros [T [E1 E2]] Hin H1 H2.
  destruct ab, bc; simpl in *; try congruence.
  - rewrite (E1 eq_refl). simpl. apply Hin; auto.
  - rewrite (E1 eq_refl). discriminate.
  - rewrite (E2 eq_refl). discriminate.
  - rewrite (T eq_refl eq_refl). discriminate.
Qed.

Lemma pystr_compare_coherent (x y z : pystr) :
  comp_coherent (pystr_compare x y) (pystr_compare y z) (pystr_compare x z).
Proof.
  split; [apply pystr_compare_lt_trans|split].
  - intro H. apply pystr_compare_eq in H. subst. reflexivity.
  - intro H. apply pystr_compare_eq in H. subst. reflexivity.
Qed.

Lemma cmp_date_desc_coherent (x y z : option pystr) :
  comp_coherent (cmp_date_desc x y) (cmp_date_desc y z) (cmp_date_desc x z).
Proof.
  destruct x as [x|], y as [y|], z as [z|]; simpl; unfold comp_coherent;
    repeat split; intros; try discriminate; try reflexivity; try assumption.
  - eapply pystr_compare_lt_trans; eassumption.
  - match goal with H : pystr_compare y x = Eq |- _ =>
      apply pystr_compare_eq in H; subst; reflexivity end.
  - match goal with H : pystr_compare z y = Eq |- _ =>
      apply pystr_compare_eq in H; subst; reflexivity end.
Qed.

Lemma cmp_row_lex (a b : unified_row) :
  cmp_row a b =
  lex (cmp_date_desc (date a) (date b))
      (lex (pystr_compare (platform a) (platform b))
           (lex (pystr_compare (campaign_id a) (campaign_id b)) Eq)).
Proof.
  unfold cmp_row, lex.
  destruct (cmp_date_desc (date a) (date b)); try reflexivity.
  destruct (pystr_compare (platform a) (platform b)); try reflexivity.
  destruct (pystr_compare (campaign_id a) (campaign_id b)); reflexivity.
Qed.

Lemma row_le_trans (a b c : unified_row) : row_le a b -> row_le b c -> row_le a c.
Proof.
  unfold row_le. rewrite !cmp_row_lex.
  apply lex_le_trans; [apply cmp_date_desc_coherent|].
  intros _ _. apply lex_le_trans; [apply pystr_compare_coherent|].
  intros _ _. apply lex_le_trans; [apply pystr_compare_coherent|].
  intros _ _ _ _. discriminate.
Qed.

(* ------------------------------------------------------------------ *)
(** ** Re-sorting, the most recent date first, the row count and the log *)

Lemma insert_row_head (x : unified_row) (l : list unified_row) :
  HdRel row_le x l -> insert_row x l = x :: l.
Proof.
  destruct l as [|y l]; intro H; [reflexivity|].
  inversion H as [|? ? Hxy]; subst. simpl.
  destruct (cmp_row x y) eqn:C; try reflexivity. contradiction.
Qed.

Lemma sort_values_sorted_id (l : list unified_row) :
  Sorted row_le l -> sort_values l = l.
Proof.
  induction l as [|a l IH]; intro H; [reflexivity|].
  apply Sorted_inv in H as [Hl Hhd]. simpl. rewrite (IH Hl).
  apply insert_row_head. exact Hhd.
Qed.

(** Sorting the unified frame again (as [sort_values] on the saved frame)
    leaves it as it is: the sort of [clean_and_merge] is idempotent. *)
Theorem sort_values_idempotent (l : list unified_row) :
  sort_values (sort_values l) = sort_values l.
Proof. apply sort_values_sorted_id, sort_values_sorted. Qed.

Lemma sorted_head_le (h : unified_row) (t : list unified_row) :
  Sorted row_le (h :: t) -> forall x, In x t -> row_le h x.
Proof.
  intro H. apply Sorted_StronglySorted in H.
  - apply StronglySorted_inv in H as [_ Hh]. apply Forall_forall. exact Hh.
  - intros a b c. apply row_le_trans.
Qed.

(** The first row of the unified frame carries the most recent date: every
    dated row of the frame has a date not later than the first row's
    (dates compared as ISO strings); and among the rows of that date the
    first row has the smallest platform. *)
Theorem clean_and_merge_latest_first (td : pystr -> option pystr) (st : fs)
  (log : list msg) (res : result) (st' : fs) (h : unified_row) (df : list unified_row) :
  clean_and_merge td st = (log, res, st') -> produced res st' (h :: df) ->
  forall x d, In x df -> date x = Some d ->
  exists dh, date h = Some dh /\ pystr_compare d dh <> Gt /\
    (d = dh -> pystr_compare (platform h) (platform x) <> Gt).
Proof.
  intros H Hp x d Hx Hd.
  destruct (clean_and_merge_produced _ _ _ _ _ _ H Hp) as [rows [_ [Hdf _]]].
  assert (Hs : Sorted row_le (h :: df)) by (rewrite Hdf; apply sort_values_sorted).
  pose proof (sorted_head_le h df Hs x Hx) as Hle.
  unfold row_le, cmp_row in Hle. rewrite Hd in Hle.
  destruct (date h) as [dh|]; simpl in Hle; [|contradiction].
  exists dh. split; [reflexivity|].
  destruct (pystr_compare d dh) eqn:C.
  - apply pystr_compare_eq in C. subst dh. split; [discriminate|].
    intros _ Hq. rewrite Hq in Hle. contradiction.
  - split; [discriminate|]. intro E. subst dh.
    rewrite pystr_compare_refl in C. discriminate.
  - contradiction.
Qed.

(** [clean_and_merge] neither drops nor duplicates rows: the frame it
    produces has as many rows as the raw tables together. The log reports
    that count in the "saved" line (line 142), followed by the number of
    distinct campaign ids and the distinct platforms (lines 143-144); when
    the frame is returned, the date range and the closing line follow
    (lines 145-146); when the date-range print raises, the log stops after
    the platforms. *)
Theorem clean_and_merge_row_count (td : pystr -> option pystr) (st : fs)
  (log : list msg) (res : result) (st' : fs) (df : list unified_row) :
  clean_and_merge td st = (log, res, st') -> produced res st' df ->
  length df = (n_rows (table_of (google_ads_csv st))
               + n_rows (table_of (facebook_ads_csv st)))%nat /\
  let tail3 := [MsgSaved (length df);
                MsgCampaigns (length (unique (map campaign_id df)));
                MsgPlatforms (unique (map platform df))] in
  (res = ROk df ->
   exists lo hi, date_range (map date df) = Some (lo, hi) /\
     skipn (length log - 5) log = (tail3 ++ [MsgDateRange lo hi; MsgMetricsComputed])%list) /\
  (res = RTypeError ->
   date_range (map date df) = None /\ skipn (length log - 3) log = tail3).
Proof.
  unfold clean_and_merge, produced. cbn [with_dir google_ads_csv facebook_ads_csv].
  destruct (google_ads_csv st) as [[g|]|], (facebook_ads_csv st) as [[f|]|];
    cbn [read_table table_of combine_tables n_rows];
    try (destruct (date_range _) as [[lo hi]|] eqn:Ed);
    intro H; injection H as <- <- <-; intros [Hr|[Hr Hc]]; try discriminate;
    try (injection Hr as <-);
    try (cbn [with_csv unified_ads_csv] in Hc; injection Hc as <-);
    (split; [rewrite unify_length; try rewrite length_app; lia|]);
    cbv zeta; split; intro Hres; try discriminate;
    try (exists lo, hi; split; [exact Ed|reflexivity]);
    try (split; [exact Ed|reflexivity]).
Qed.

(** What [clean_and_merge] writes. *)
Lemma clean_and_merge_effects (td : pystr -> option pystr) (st : fs) :
  let '(_, res, st') := clean_and_merge td st in
  google_ads_csv st' = google_ads_csv st /\
  facebook_ads_csv st' = facebook_ads_csv st /\
  store_table st' = store_table st /\
  clean_dir st' = true /\
  match res with
  | ROk df => unified_ads_csv st' = Some df
  | RTypeError =>
      exists rows,
        combine_tables (table_of (google_ads_csv st)) (table_of (facebook_ads_csv st))
        = Some rows /\
        unified_ads_csv st' = Some (unify td rows) /\
        date_range (map date (unify td rows)) = None
  | RValueError _ | RReadError _ => unified_ads_csv st' = unified_ads_csv st
  end.
Proof.
  unfold clean_and_merge. cbn [with_dir google_ads_csv facebook_ads_csv].
  destruct (google_ads_csv st) as [[g|]|] eqn:Eg, (facebook_ads_csv st) as [[f|]|] eqn:Ef;
    cbn [read_table table_of combine_tables];
    try (destruct (date_range _) as [[lo hi]|] eqn:Ed);
    cbn [with_csv google_ads_csv facebook_ads_csv store_table clean_dir unified_ads_csv];
    repeat split;
    try (eexists; split; [reflexivity|split; [reflexivity|exact Ed]]);
    cbn [with_dir google_ads_csv facebook_ads_csv]; assumption.
Qed.


(* ------------------------------------------------------------------ *)
(** ** The ETL steps in sequence: [clean_merge.py], then [load_to_duckdb.py] *)

(** Whether the table ends with the new dataset is decided by the steps up
    to [CREATE TABLE]. *)
Lemma load_to_duckdb_final (row : Type) (fails : step row -> bool)
  (df : list row) (t : option (list row)) :
  let '(_, raised, final) := load_to_duckdb row fails df t in
  if fails_before_table row fails df
  then raised = true /\ (final = t \/ final = None)
  else final = Some df.
Proof.
  pose proof (load_to_duckdb_run row fails df t) as H.
  destruct (load_to_duckdb row fails df t) as [[trace raised] final].
  destruct H as [_ H]. unfold fails_before_table.
  rewrite existsb_app. cbn [existsb]. rewrite orb_false_r, orb_assoc.
  revert H.
  destruct (existsb fails steps_before_drop || fails (SExec DropTableIfExists));
    cbn [orb].
  - intros [-> ->]. auto.
  - destruct (fails (SExec (CreateTableAs df))).
    + intros [-> ->]. auto.
    + intros H. exact (proj1 H).
Qed.

(** Running the cleaner and then the loader's [main]. The loader runs on
    the frame [clean_and_merge] produced whenever there is one (returned,
    or written before the date-range print raised): unless a step up to
    and including [CREATE TABLE] raises, the table then holds exactly that
    frame (as read back), and otherwise the prior table or none. When the
    cleaner raised before writing, the loader still runs if a unified csv
    from an earlier run is present, and loads that stale frame; only when
    there is none does it stop with nothing changed. The loader never
    rewrites the csv. *)
Theorem clean_then_load (td : pystr -> option pystr)
  (read_csv : list unified_row -> list unified_row)
  (fails : step unified_row -> bool) (st : fs) :
  let '(_, res, st1) := clean_and_merge td st in
  let '(loaded, raised, st2) := load_main read_csv fails st1 in
  unified_ads_csv st2 = unified_ads_csv st1 /\
  (forall df, produced res st1 df ->
     loaded = true /\
     (fails_before_table unified_row fails (read_csv df) = false ->
      store_table st2 = Some (read_csv df)) /\
     (fails_before_table unified_row fails (read_csv df) = true ->
      raised = true /\ (store_table st2 = store_table st \/ store_table st2 = None))) /\
  match res with
  | RValueError _ | RReadError _ =>
      match unified_ads_csv st with
      | None => loaded = false /\ st2 = st1 /\ store_table st2 = store_table st
      | Some old =>
          loaded = true /\
          (fails_before_table unified_row fails (read_csv old) = false ->
           store_table st2 = Some (read_csv old))
      end
  | _ => True
  end.
Proof.
  pose proof (clean_and_merge_effects td st) as Heff.
  pose proof (clean_and_merge_produced td st) as Hprod.
  destruct (clean_and_merge td st) as [[log res] st1].
  destruct Heff as [_ [_ [Hstore [_ Hres]]]].
  unfold load_main.
  destruct (unified_ads_csv st1) as [csv|] eqn:Hcsv.
  - pose proof (load_to_duckdb_final unified_row fails (read_csv csv) (store_table st1))
      as Hfin.
    destruct (load_to_duckdb unified_row fails (read_csv csv) (store_table st1))
      as [[trace raised] final].
    cbn [unified_ads_csv store_table].
    split; [reflexivity|split].
    + intros df Hp.
      destruct (Hprod _ _ _ df eq_refl Hp) as [rows [_ [_ Hc]]].
      rewrite Hcsv in Hc. injection Hc as Hc. subst csv.
      split; [reflexivity|].
      destruct (fails_before_table unified_row fails (read_csv df)).
      * split; [discriminate|]. intros _. rewrite <- Hstore. exact Hfin.
      * split; [intros _; exact Hfin|discriminate].
    + destruct res; try exact I; rewrite <- Hres;
        (split; [reflexivity|]); intro Hf; rewrite Hf in Hfin; exact Hfin.
  - cbn [unified_ads_csv store_table].
    split; [congruence|split].
    + intros df Hp. destruct (Hprod _ _ _ df eq_refl Hp) as [rows [_ [_ Hc]]].
      rewrite Hcsv in Hc. discriminate.
    + destruct res; try exact I; rewrite <- Hres;
        repeat split; try reflexivity; assumption.
Qed.

(* ------------------------------------------------------------------ *)
(** ** Dashboard filters, groupings and the region radar *)

Module DashboardChartsFacts.
Import Dashboard DashboardCharts.

(** The default range of the date filter is never empty or inverted and
    lies within the widget's bounds: it starts no earlier than [min_date],
    ends at the (possibly widened) [max_date], and spans at most 30 days.
    When all data is on a single day, [max_date] is moved one day later;
    otherwise it is kept. *)
Theorem date_defaults_in_bounds (min_date max_date : Z) :
  let '(default_start, max_date') := date_defaults min_date max_date in
  (min_date <= default_start < max_date')%Z /\
  (max_date' - default_start <= 30)%Z /\
  (if (min_date <? max_date)%Z then max_date' = max_date
   else max_date' = (min_date + 1)%Z).
Proof.
  unfold date_defaults.
  destruct (max_date <=? min_date)%Z eqn:E1, (min_date <? max_date)%Z eqn:E2;
    [apply Z.leb_le in E1; apply Z.ltb_lt in E2; lia| | |
     apply Z.leb_gt in E1; apply Z.ltb_ge in E2; lia];
    (split; [lia|split; [lia|reflexivity]]).
Qed.

Lemma filter_rows_empty (start_date end_date : Z) (regions products : list pystr)
  (df : list row) :
  regions = [] \/ products = [] \/ (end_date < start_date)%Z ->
  filter_rows start_date end_date regions products df = [].
Proof.
  intro H. unfold filter_rows. induction df as [|r df IH]; [reflexivity|].
  simpl. rewrite IH.
  destruct H as [->|[->|H]].
  - rewrite andb_false_r, andb_false_l. reflexivity.
  - rewrite andb_false_r. reflexivity.
  - destruct (start_date <=? date r)%Z eqn:A; [|reflexivity].
    destruct (date r <=? end_date)%Z eqn:B; [|reflexivity].
    apply Z.leb_le in A, B. lia.
Qed.

(** With no region or no product selected, or a start date after the end
    date, no row passes the filter: the float64 sums are [0.0], the int64
    sums 0, every KPI mean is [NaN], and the contribution margin card
    computes [0.0 / 0.0], which numpy evaluates to [NaN]. *)
Theorem kpi_empty_selection (start_date end_date : Z)
  (regions products : list pystr) (df : list row) :
  regions = [] \/ products = [] \/ (end_date < start_date)%Z ->
  let k := kpi_summary (filter_rows start_date end_date regions products df) in
  total_revenue k = f64_zero /\ total_orders k = 0%Z /\ total_customers k = 0%Z /\
  total_cogs k = f64_zero /\ total_marketing_spend k = f64_zero /\
  avg_order_value_k k = f64_nan /\ avg_gross_margin k = f64_nan /\
  avg_customer_lifetime_value k = f64_nan /\ avg_nps k = f64_nan /\
  avg_customer_acquisition_cost k = f64_nan /\ contribution_margin k = f64_nan.
Proof.
  intro H. cbv zeta. rewrite (filter_rows_empty _ _ _ _ df H).
  repeat split; vm_compute; reflexivity.
Qed.

Section GroupFacts.

Variable K : Type.
Variable cmp : K -> K -> comparison.
Hypothesis cmp_eq : forall a b, cmp a b = Eq <-> a = b.
Hypothesis cmp_antisym : forall a b, cmp b a = CompOpp (cmp a b).
Hypothesis cmp_lt_trans : forall a b c, cmp a b = Lt -> cmp b c = Lt -> cmp a c = Lt.

Let lt a b := cmp a b = Lt.

Lemma insert_key_in (k x : K) (ks : list K) :
  In x (insert_key cmp k ks) <-> x = k \/ In x ks.
Proof.
  induction ks as [|k' ks IH]; simpl; [firstorder congruence|].
  destruct (cmp k k') eqn:C; simpl.
  - apply cmp_eq in C. subst k'. firstorder congruence.
  - firstorder congruence.
  - rewrite IH. tauto.
Qed.

Lemma insert_key_sorted (k : K) (ks : list K) :
  StronglySorted lt ks -> StronglySorted lt (insert_key cmp k ks).
Proof.
  induction ks as [|k' ks IH]; intro H; simpl.
  - repeat constructor.
  - apply StronglySorted_inv in H as [Hs Hf].
    destruct (cmp k k') eqn:C.
    + constructor; assumption.
    + constructor; [constructor; assumption|].
      constructor; [exact C|].
      eapply Forall_impl; [|exact Hf]. intros x Hx. exact (cmp_lt_trans _ _ _ C Hx).
    + constructor; [exact (IH Hs)|].
      apply Forall_forall. intros x Hx. apply insert_key_in in Hx as [->|Hx].
      * unfold lt. rewrite cmp_antisym, C. reflexivity.
      * exact (proj1 (Forall_forall _ _) Hf x Hx).
Qed.

Lemma group_keys_sorted (key : row -> K) (df : list row) :
  StronglySorted lt (group_keys cmp key df).
Proof.
  induction df as [|r df IH]; simpl; [constructor|].
  apply insert_key_sorted, IH.
Qed.

Lemma group_keys_in (key : row -> K) (df : list row) (k : K) :
  In k (group_keys cmp key df) <-> exists r, In r df /\ key r = k.
Proof.
  induction df as [|r df IH]; simpl; [split; [contradiction|intros [? [[] _]]]|].
  rewrite insert_key_in, IH. split.
  - intros [->|[r' [H1 H2]]]; [exists r; auto|exists r'; auto].
  - intros [r' [[->|H1] H2]]; [left; auto|right; exists r'; auto].
Qed.

Lemma sorted_lt_nodup (ks : list K) : StronglySorted lt ks -> NoDup ks.
Proof.
  induction ks as [|k ks IH]; intro H; constructor.
  - apply StronglySorted_inv in H as [_ Hf]. intro Hin.
    pose proof (proj1 (Forall_forall _ _) Hf k Hin) as Hk. unfold lt in Hk.
    rewrite (proj2 (cmp_eq k k) eq_refl) in Hk. discriminate.
  - apply IH. apply StronglySorted_inv in H. tauto.
Qed.

Lemma sum_one_key (x : K) (v : Z) (ks : list K) :
  NoDup ks -> In x ks ->
  zsum (map (fun k => match cmp x k with Eq => v | _ => 0%Z end) ks) = v.
Proof.
  unfold zsum.
  induction ks as [|k ks IH]; intros Hnd Hin; [contradiction|].
  inversion Hnd as [|? ? Hk Hnd']; subst. simpl.
  destruct Hin as [<-|Hin].
  - rewrite (proj2 (cmp_eq k k) eq_refl).
    assert (Z0 : fold_right Z.add 0%Z
                   (map (fun k' => match cmp k k' with Eq => v | _ => 0%Z end) ks) = 0%Z).
    { clear IH Hnd Hnd'. induction ks as [|k' ks IH']; simpl; [reflexivity|].
      destruct (cmp k k') eqn:C.
      - apply cmp_eq in C. subst. exfalso. apply Hk. left. reflexivity.
      - rewrite IH'; [reflexivity|]. intro; apply Hk; right; assumption.
      - rewrite IH'; [reflexivity|]. intro; apply Hk; right; assumption. }
    rewrite Z0. lia.
  - rewrite (IH Hnd' Hin).
    destruct (cmp x k) eqn:C; [|lia|lia].
    apply cmp_eq in C. subst. contradiction.
Qed.

Lemma zsum_map_add (a b : K -> Z) (ks : list K) :
  zsum (map (fun k => (a k + b k)%Z) ks) = (zsum (map a ks) + zsum (map b ks))%Z.
Proof. unfold zsum. induction ks as [|k ks IH]; simpl; lia. Qed.

Lemma sum_groups (key : row -> K) (f : row -> Z) (ks : list K) (df : list row) :
  NoDup ks -> (forall r, In r df -> In (key r) ks) ->
  zsum (map (fun k => zsum (map f (group_rows cmp key df k))) ks) = zsum (map f df).
Proof.
  intros Hnd. induction df as [|r df IH]; intro Hin.
  - unfold group_rows. simpl. clear Hin Hnd.
    induction ks as [|k ks IH']; simpl; [reflexivity|]. exact IH'.
  - rewrite (map_ext (fun k => zsum (map f (group_rows cmp key (r :: df) k)))
                     (fun k => (match cmp (key r) k with Eq => f r | _ => 0%Z end
                                + zsum (map f (group_rows cmp key df k)))%Z)).
    2:{ intro k. unfold group_rows. cbn [filter].
        destruct (cmp (key r) k); cbn [map]; unfold zsum; cbn [fold_right]; lia. }
    rewrite zsum_map_add.
    rewrite IH, sum_one_key; [|exact Hnd|apply Hin; left; reflexivity|].
    + reflexivity.
    + intros r' Hr'. apply Hin. right. exact Hr'.
Qed.

(** The generic [groupby]: keys strictly ascending, exactly the keys of the
    frame, and the int64 group sums adding up (in int64) to the frame's
    int64 sum. *)
Lemma groupby_int_facts (key : row -> K) (f : row -> Z) (df : list row) :
  StronglySorted lt (map fst (groupby_int_sum cmp key f df)) /\
  (forall k, In k (map fst (groupby_int_sum cmp key f df)) <->
             exists r, In r df /\ key r = k) /\
  int_sum (map snd (groupby_int_sum cmp key f df)) = int_sum (map f df).
Proof.
  unfold groupby_int_sum. rewrite !map_map. cbn [fst snd].
  rewrite map_id. split; [apply group_keys_sorted|].
  split; [apply group_keys_in|].
  rewrite !int_sum_wrap.
  rewrite (map_ext (fun k => int_sum (map f (group_rows cmp key df k)))
                   (fun k => wrap64 (zsum (map f (group_rows cmp key df k)))))
    by (intro; apply int_sum_wrap).
  rewrite (zsum_wrap_each K (fun k => zsum (map f (group_rows cmp key df k)))).
  f_equal. apply sum_groups; [apply sorted_lt_nodup, group_keys_sorted|].
  intros r Hr. apply group_keys_in. exists r. auto.
Qed.

End GroupFacts.

(** [region_df] (grouped by region) has one row per region present in the
    filtered frame, in ascending order of region; its int64 sum columns add
    up, in int64, to the KPI cards' int64 totals: orders to Total Orders,
    and new plus repeat customers to Total Customers. *)
Theorem region_df_totals (filtered_df : list row) :
  let k := kpi_summary filtered_df in
  StronglySorted (fun a b => pystr_compare a b = Lt)
    (map fst (region_int_sum orders filtered_df)) /\
  (forall x, In x (map fst (region_int_sum orders filtered_df)) <->
             exists r, In r filtered_df /\ region r = x) /\
  int_sum (map snd (region_int_sum orders filtered_df)) = total_orders k /\
  wrap64 (int_sum (map snd (region_int_sum new_customers filtered_df))
          + int_sum (map snd (region_int_sum repeat_customers filtered_df)))
  = total_customers k.
Proof.
  unfold region_int_sum. cbv zeta. unfold kpi_summary.
  cbn [total_orders total_customers].
  pose (G := groupby_int_facts pystr pystr_compare pystr_compare_eq
               pystr_compare_antisym pystr_compare_lt_trans region).
  destruct (G orders filtered_df) as [S1 [S2 S3]].
  destruct (G new_customers filtered_df) as [_ [_ N3]].
  destruct (G repeat_customers filtered_df) as [_ [_ P3]].
  split; [exact S1|split; [exact S2|split; [exact S3|]]].
  rewrite N3, P3. reflexivity.
Qed.

Definition max_step (m y : Q) : Q := if Qlt_le_dec m y then y else m.

Lemma fold_max_ge (xs : list Q) (m0 : Q) :
  m0 <= fold_left max_step xs m0 /\ Forall (fun x => x <= fold_left max_step xs m0) xs.
Proof.
  revert m0. induction xs as [|x xs IH]; intro m0; simpl.
  - split; [apply Qle_refl|constructor].
  - destruct (IH (max_step m0 x)) as [H1 H2].
    assert (Hm : m0 <= max_step m0 x /\ x <= max_step m0 x).
    { unfold max_step. destruct (Qlt_le_dec m0 x); split; lra. }
    split; [lra|constructor; [lra|exact H2]].
Qed.

Lemma fold_max_in (xs : list Q) (m0 : Q) :
  fold_left max_step xs m0 = m0 \/ In (fold_left max_step xs m0) xs.
Proof.
  revert m0. induction xs as [|x xs IH]; intro m0; simpl; [left; reflexivity|].
  destruct (IH (max_step m0 x)) as [->|H]; [|right; right; exact H].
  unfold max_step. destruct (Qlt_le_dec m0 x); [right; left|left]; reflexivity.
Qed.

Lemma col_max_ge (xs : list Q) (x : Q) :
  In x xs -> exists m, col_max xs = Some m /\ x <= m.
Proof.
  destruct xs as [|y ys]; [contradiction|]. intro Hin.
  exists (fold_left max_step ys y). split; [reflexivity|].
  destruct (fold_max_ge ys y) as [H1 H2].
  destruct Hin as [<-|Hin]; [exact H1|exact (proj1 (Forall_forall _ _) H2 x Hin)].
Qed.

Lemma col_max_in (xs : list Q) (m : Q) : col_max xs = Some m -> In m xs.
Proof.
  destruct xs as [|y ys]; [discriminate|]. simpl. intro H. injection H as <-.
  change (fold_left (fun m y => if Qlt_le_dec m y then y else m) ys y)
    with (fold_left max_step ys y).
  destruct (fold_max_in ys y) as [->|H]; [left; reflexivity|right; exact H].
Qed.

Lemma scale12_covers (xs : list Q) (x : Q) :
  In x xs -> exists m, scale12 (col_max xs) = Some m /\ (0 <= x -> x <= m).
Proof.
  intro Hin. destruct (col_max_ge xs x Hin) as [m [-> Hm]].
  exists (m * (6 # 5)). split; [reflexivity|]. intro. lra.
Qed.

(** The radar's axes: on an empty [region_df] every axis maximum is [NaN],
    the NPS one too (Python's [max(nan, 50)] is [nan]). Otherwise every
    axis has a number as maximum; the NPS axis reaches at least 50 and at
    least every region's NPS score; every other axis is at least every
    region's non-negative value on it. *)
Theorem radar_axes (region_df : list region_stats) :
  (region_df = [] -> Forall (fun p => snd p = None) (radar_indicators region_df)) /\
  (forall r, In r region_df ->
   exists mo mr mg mn mp mi,
     radar_indicators region_df =
       [("Orders", Some mo); ("Revenue", Some mr); ("Gross Margin", Some mg);
        ("New Customers", Some mn); ("NPS Score", Some mp); ("Inv. Turnover", Some mi)] /\
     50 <= mp /\ rs_nps_score r <= mp /\
     (0 <= rs_orders r -> rs_orders r <= mo) /\
     (0 <= rs_revenue r -> rs_revenue r <= mr) /\
     (0 <= rs_gross_margin r -> rs_gross_margin r <= mg) /\
     (0 <= rs_new_customers r -> rs_new_customers r <= mn) /\
     (0 <= rs_inventory_turnover r -> rs_inventory_turnover r <= mi)).
Proof.
  split.
  - intros ->. repeat constructor.
  - intros r Hr.
    destruct (scale12_covers (map rs_orders region_df) (rs_orders r))
      as [mo [Eo Ho]]; [apply in_map; exact Hr|].
    destruct (scale12_covers (map rs_revenue region_df) (rs_revenue r))
      as [mr [Er Hr']]; [apply in_map; exact Hr|].
    destruct (scale12_covers (map rs_gross_margin region_df) (rs_gross_margin r))
      as [mg [Eg Hg]]; [apply in_map; exact Hr|].
    destruct (scale12_covers (map rs_new_customers region_df) (rs_new_customers r))
      as [mn [En Hn]]; [apply in_map; exact Hr|].
    destruct (scale12_covers (map rs_inventory_turnover region_df)
                (rs_inventory_turnover r)) as [mi [Ei Hi]]; [apply in_map; exact Hr|].
    destruct (col_max_ge (map rs_nps_score region_df) (rs_nps_score r))
      as [m [Ep Hp]]; [apply in_map; exact Hr|].
    set (mp := if Qlt_le_dec (m * (6 # 5)) 50 then 50 else m * (6 # 5)).
    exists mo, mr, mg, mn, mp, mi.
    split; [unfold radar_indicators; rewrite Eo, Er, Eg, En, Ei, Ep; reflexivity|].
    split; [unfold mp; destruct (Qlt_le_dec (m * (6 # 5)) 50); lra|].
    split; [unfold mp; destruct (Qlt_le_dec (m * (6 # 5)) 50); lra|].
    auto.
Qed.

(** When every region has a negative value in a column (say a negative
    gross margin), the axis maximum [max * 1.2] is below the largest value:
    the best region's point lies beyond its axis. *)
Theorem radar_negative_axis_exceeded (region_df : list region_stats) :
  region_df <> [] -> Forall (fun r => rs_gross_margin r < 0) region_df ->
  exists r mg, In r region_df /\
    nth_error (radar_indicators region_df) 2 = Some ("Gross Margin", Some mg) /\
    mg < rs_gross_margin r.
Proof.
  intros Hne Hneg.
  destruct (col_max (map rs_gross_margin region_df)) as [m|] eqn:E.
  - apply col_max_in in E as Hin. apply in_map_iff in Hin as [r [Hm Hr]].
    exists r, (m * (6 # 5)). split; [exact Hr|].
    split; [unfold radar_indicators; rewrite E; reflexivity|].
    pose proof (proj1 (Forall_forall _ _) Hneg r Hr) as Hn. cbn beta in Hn. subst m. lra.
  - destruct region_df; [contradiction|discriminate].
Qed.

(** Witnesses on concrete frames. *)

Lemma kpi_empty_selection_witness :
  let k := kpi_summary (filter_rows 0 10 [] [u "Coconut Water"]
                          [DashboardFacts.demo_row1; DashboardFacts.demo_row2]) in
  total_revenue k = f64_zero /\ avg_nps k = f64_nan /\ contribution_margin k = f64_nan.
Proof.
  destruct (kpi_empty_selection 0 10 [] [u "Coconut Water"]
              [DashboardFacts.demo_row1; DashboardFacts.demo_row2]
              (or_introl eq_refl)) as [H1 [_ [_ [_ [_ [_ [_ [_ [H9 [_ H11]]]]]]]]]].
  split; [exact H1|split; [exact H9|exact H11]].
Defined.

Definition demo_region_df : list region_stats :=
  [mk_region_stats (u "Midwest") 10 350 (-1 # 10) 3 30 12;
   mk_region_stats (u "Northeast") 12 400 (-1 # 5) 4 40 10].

Lemma radar_negative_axis_exceeded_witness :
  exists r mg, In r demo_region_df /\
    nth_error (radar_indicators demo_region_df) 2 = Some ("Gross Margin", Some mg) /\
    mg < rs_gross_margin r.
Proof.
  apply radar_negative_axis_exceeded; [discriminate|].
  repeat constructor.
Defined.

End DashboardChartsFacts.

(* ------------------------------------------------------------------ *)
(** ** Witnesses on the example input (continued) *)

Lemma clean_and_merge_latest_first_witness :
  exists h t, demo_df = h :: t /\
    clean_and_merge parse_iso_date demo_fs = (demo_log, ROk (h :: t), demo_fs') /\
    forall x d, In x t -> date x = Some d ->
    exists dh, date h = Some dh /\ pystr_compare d dh <> Gt.
Proof.
  destruct demo_df as [|h t] eqn:E; [vm_compute in E; discriminate|].
  exists h, t.
  assert (H : clean_and_merge parse_iso_date demo_fs = (demo_log, ROk (h :: t), demo_fs'))
    by (rewrite <- E; vm_compute; reflexivity).
  split; [reflexivity|split; [exact H|]].
  intros x d Hx Hd.
  destruct (clean_and_merge_latest_first _ _ _ _ _ _ _ H (or_introl eq_refl) x d Hx Hd)
    as [dh [H1 [H2 _]]].
  exists dh. split; assumption.
Defined.

Lemma clean_and_merge_row_count_witness :
  clean_and_merge parse_iso_date demo_fs = (demo_log, ROk demo_df, demo_fs') /\
  length demo_df = 3%nat.
Proof.
  assert (H : clean_and_merge parse_iso_date demo_fs
              = (demo_log, ROk demo_df, demo_fs')) by (vm_compute; reflexivity).
  split; [exact H|].
  rewrite (proj1 (clean_and_merge_row_count _ _ _ _ _ _ H (or_introl eq_refl))).
  reflexivity.
Defined.
